(** * kubernetes-router: the HTTP router API (api/api.go)

    A shallow embedding of the dispatch layer of [api/api.go]: mode
    resolution, instance addressing, the backend / routes / swap / info /
    certificate / CNAME handlers and the health aggregate, followed by the
    properties of the specification that concern them.

    Conventions of the embedding.
    - A Go map is a [gmap]; a lookup [m[k]] of a [map[string]string] is
      [default "" (m !! k)] (the zero value when the key is absent).
    - A handler [func(w, r) error] is a function from the request and the
      world (Provider-owned state, the log of Provider calls, the response
      writer [w]) to an outcome (the returned error, or a run-time panic)
      and the new world.
    - Provider methods are state transformers on the Provider-owned state;
      every invocation is appended to the call log, labelled with the
      identity of the Go value behind the interface.
    - [http.ResponseWriter] follows net/http: the first [WriteHeader] fixes
      the status, later ones are superfluous (and only logged), and a
      [Write] before any [WriteHeader] sends status 200. A [Write] yields
      the error of the connection, nil when it is sound.
    - [log.Printf] and [glog.Errorf] only write to the process log and are
      left out. *)

From Stdlib Require Import ZArith String.
From stdpp Require Import gmap strings list fin_maps.

Open Scope Z_scope.
Open Scope string_scope.
Open Scope list_scope.

(** ** net/http status codes used by the handlers *)

Definition StatusOK : Z := 200.
Definition StatusBadRequest : Z := 400.
Definition StatusNotFound : Z := 404.
Definition StatusConflict : Z := 409.
Definition StatusInternalServerError : Z := 500.

(** ** strings.Contains, strings.Join *)

Fixpoint Contains (s substr : string) : bool :=
  String.prefix substr s ||
  match s with
  | EmptyString => false
  | String _ s' => Contains s' substr
  end.

Fixpoint Join (elems : list string) (sep : string) : string :=
  match elems with
  | [] => ""
  | [x] => x
  | x :: rest => x +:+ sep +:+ Join rest sep
  end.

(** What it is for [s] to be the elements of a list joined by [sep], in
    the words of the specification: nothing for no element, the element
    itself for one, and otherwise the first element, the separator and the
    rest joined. *)
Inductive Joined (sep : string) : list string -> string -> Prop :=
| Joined_none : Joined sep [] ""
| Joined_one (x : string) : Joined sep [x] x
| Joined_more (x y : string) (rest : list string) (s : string) :
    Joined sep (y :: rest) s -> Joined sep (x :: y :: rest) (x +:+ sep +:+ s).

(** ** Errors

    Go's [error] values, as far as the handlers tell them apart: an
    [api.httpError] with its two fields, or any other error, known by the
    text of its [Error()] method. *)

Inductive error :=
| httpError (Body : string) (Status : Z)
| errorString (text : string).

(** ** package router: the data the handlers exchange with a Provider *)

Record InstanceID := { AppName : string; InstanceName : string }.

Record swapReq := { Target : string }.

(** ** Outcomes

    A handler returns an error value (nil or not) or panics; a step of its
    body yields a value or ends the handler with an outcome. *)

Inductive Outcome :=
| Returns (err : option error)
| Panics.

Inductive Step (A : Type) :=
| Next (a : A)
| Stop (o : Outcome).
Arguments Next {A} a.
Arguments Stop {A} o.

Section Api.

(** What [api.go] uses from outside itself. [PS] is the state the
    Providers own. [OtherOpts], [RoutesRequestExtraData], [CertData] and
    [CnamesResp] stand for the parts of package router's types that
    [api.go] never inspects. The decoders and marshallers are
    encoding/json at the types concerned. [httpErrorText] is the
    [Error()] method of [api.httpError], [DescribedOptions] the table of
    global option descriptions of package router. *)
Context {PS OtherOpts RoutesRequestExtraData CertData CnamesResp : Type}.

Record Opts := {
  Domain : string;
  Route : string;
  HeaderOpts : list string;
  Others : OtherOpts
}.

Record RoutesRequestData := {
  Prefix : string;
  ExtraData : RoutesRequestExtraData
}.

Context (zeroOthers : OtherOpts).
Context (decodeOpts : string -> Opts -> error + Opts).
Context (decodeRoutes : string -> error + RoutesRequestData).
Context (decodeSwap : string -> error + swapReq).
Context (decodeCert : string -> error + CertData).
Context (marshalCert : CertData -> error + string).
Context (marshalCnames : CnamesResp -> error + string).
Context (httpErrorText : string -> Z -> string).
Context (DescribedOptions : gmap string string).

Definition Error (e : error) : string :=
  match e with
  | httpError b s => httpErrorText b s
  | errorString t => t
  end.

(** *** The Provider interfaces

    [router.Service] and the optional [router.ServiceTLS],
    [router.ServiceCNAME] and [router.HealthcheckableService]. A type
    assertion [svc.(router.ServiceTLS)] reads [asTLS]. *)

Record ServiceTLS := {
  AddCertificate : InstanceID -> string -> CertData -> PS -> option error * PS;
  GetCertificate : InstanceID -> string -> PS -> (CertData * option error) * PS;
  RemoveCertificate : InstanceID -> string -> PS -> option error * PS
}.

Record ServiceCNAME := {
  SetCname : InstanceID -> string -> PS -> option error * PS;
  GetCnames : InstanceID -> PS -> (CnamesResp * option error) * PS;
  UnsetCname : InstanceID -> string -> PS -> option error * PS
}.

Record Service := {
  ptr : nat; (* which Go value is behind the interface; labels the call log *)
  Create : InstanceID -> Opts -> PS -> option error * PS;
  Remove : InstanceID -> PS -> option error * PS;
  Update : InstanceID -> RoutesRequestExtraData -> PS -> option error * PS;
  Swap : InstanceID -> InstanceID -> PS -> option error * PS;
  GetAddresses : InstanceID -> PS -> (list string * option error) * PS;
  SupportedOptions : PS -> gmap string string * PS;
  asTLS : option ServiceTLS;
  asCNAME : option ServiceCNAME;
  asHealthcheckable : option (PS -> option error * PS)
}.

(** The log of Provider invocations. *)
Inductive Call :=
| CallCreate (p : nat) (id : InstanceID) (opts : Opts)
| CallRemove (p : nat) (id : InstanceID)
| CallUpdate (p : nat) (id : InstanceID) (extraData : RoutesRequestExtraData)
| CallSwap (p : nat) (src dst : InstanceID)
| CallGetAddresses (p : nat) (id : InstanceID)
| CallSupportedOptions (p : nat)
| CallAddCertificate (p : nat) (id : InstanceID) (certName : string) (cert : CertData)
| CallGetCertificate (p : nat) (id : InstanceID) (certName : string)
| CallRemoveCertificate (p : nat) (id : InstanceID) (certName : string)
| CallSetCname (p : nat) (id : InstanceID) (cname : string)
| CallGetCnames (p : nat) (id : InstanceID)
| CallUnsetCname (p : nat) (id : InstanceID) (cname : string)
| CallHealthcheck (p : nat).

(** *** Requests and responses *)

Record Request := {
  Vars : gmap string string;          (* mux.Vars(r) *)
  Header : gmap string (list string); (* r.Header *)
  ReqBody : string                    (* r.Body *)
}.

(** mux.Vars(r)[k] *)
Definition var (r : Request) (k : string) : string :=
  default "" (Vars r !! k).

(** r.Header.Values(k) and r.Header.Get(k) *)
Definition HeaderValues (r : Request) (k : string) : list string :=
  default [] (Header r !! k).

Definition HeaderGet (r : Request) (k : string) : string :=
  match HeaderValues r k with
  | [] => ""
  | v :: _ => v
  end.

(** The values handed to encoding/json's Encoder. *)
Inductive JSONValue :=
| getBackendResponse (Address : string) (Addresses : list string)
| resp (Addresses : list string)
| infoMap (info : gmap string string).

Inductive Chunk :=
| Bytes (b : string)
| Encoded (v : JSONValue).

Record ResponseWriter := {
  wroteHeader : bool;
  Code : Z;
  HeaderMap : gmap string string;
  Written : list Chunk;      (* the chunks handed to Write, in order *)
  superfluous : list Z;
  writeErr : option error    (* what Write reports: nil on a sound connection *)
}.

Definition NewRecorder : ResponseWriter :=
  {| wroteHeader := false; Code := StatusOK; HeaderMap := ∅;
     Written := []; superfluous := []; writeErr := None |}.

Definition WriteHeader (code : Z) (w : ResponseWriter) : ResponseWriter :=
  if wroteHeader w
  then {| wroteHeader := true; Code := Code w; HeaderMap := HeaderMap w;
          Written := Written w; superfluous := superfluous w ++ [code];
          writeErr := writeErr w |}
  else {| wroteHeader := true; Code := code; HeaderMap := HeaderMap w;
          Written := Written w; superfluous := superfluous w;
          writeErr := writeErr w |}.

Definition Write (c : Chunk) (w : ResponseWriter) : ResponseWriter :=
  let w := if wroteHeader w then w
           else {| wroteHeader := true; Code := StatusOK; HeaderMap := HeaderMap w;
                   Written := Written w; superfluous := superfluous w;
                   writeErr := writeErr w |} in
  {| wroteHeader := wroteHeader w; Code := Code w; HeaderMap := HeaderMap w;
     Written := Written w ++ [c]; superfluous := superfluous w;
     writeErr := writeErr w |}.

Definition HeaderSet (k v : string) (w : ResponseWriter) : ResponseWriter :=
  {| wroteHeader := wroteHeader w; Code := Code w; HeaderMap := <[k := v]> (HeaderMap w);
     Written := Written w; superfluous := superfluous w; writeErr := writeErr w |}.

(** *** The world a handler runs in, and the handler monad *)

Record World := {
  providers : PS;
  calls : list Call;
  writer : ResponseWriter
}.

Definition M (A : Type) : Type := World -> Step A * World.

Definition ret {A} (a : A) : M A := fun w => (Next a, w).

Definition bind {A B} (m : M A) (k : A -> M B) : M B :=
  fun w =>
    match m w with
    | (Next a, w') => k a w'
    | (Stop o, w') => (Stop o, w')
    end.

Notation "x <- m ;; k" := (bind m (fun x => k))
  (at level 100, m at next level, right associativity).
Notation "m ;;; k" := (bind m (fun _ => k))
  (at level 100, right associativity).

(** [return err] *)
Definition return_ {A} (err : option error) : M A :=
  fun w => (Stop (Returns err), w).

(** a failed type assertion [x.(T)] *)
Definition panic {A} : M A := fun w => (Stop Panics, w).

(** [v, err := f(); if err != nil { return err }] *)
Definition try {A} (x : error + A) : M A :=
  match x with
  | inl e => return_ (Some e)
  | inr v => ret v
  end.

(** [if err != nil { return err }] *)
Definition check (err : option error) : M unit :=
  match err with
  | Some e => return_ (Some e)
  | None => ret tt
  end.

(** a Provider method call *)
Definition invoke {A} (c : Call) (method : PS -> A * PS) : M A :=
  fun w =>
    let '(a, ps) := method (providers w) in
    (Next a, {| providers := ps; calls := calls w ++ [c]; writer := writer w |}).

(** an operation on [w] *)
Definition onWriter (f : ResponseWriter -> ResponseWriter) : M unit :=
  fun w =>
    (Next tt, {| providers := providers w; calls := calls w; writer := f (writer w) |}).

(** [w.Write(p)]: the chunk is handed to the writer, and the call yields
    the error the writer reports. *)
Definition writeChunk (c : Chunk) : M (option error) :=
  fun w =>
    (Next (writeErr (writer w)),
     {| providers := providers w; calls := calls w; writer := Write c (writer w) |}).

(** [json.NewEncoder(w).Encode(v)]: the values encoded here (strings, lists
    and maps of strings) always encode, so the error is that of the write. *)
Definition Encode (v : JSONValue) : M (option error) :=
  writeChunk (Encoded v).

(** [_, err = w.Write([]byte(s))] *)
Definition WriteBytes (s : string) : M (option error) :=
  writeChunk (Bytes s).

(** the run of a handler body, whose value is the error it returns *)
Definition handle (body : M (option error)) (w : World) : Outcome * World :=
  match body w with
  | (Next err, w') => (Returns err, w')
  | (Stop o, w') => (o, w')
  end.

(** *** RouterAPI *)

Record RouterAPI := {
  DefaultMode : string;
  IngressServices : gmap string Service
}.

Definition ingressService (a : RouterAPI) (mode : string) : error + Service :=
  let mode := if decide (mode = "") then DefaultMode a else mode in
  match IngressServices a !! mode with
  | Some svc => inr svc
  | None => inl (httpError "" StatusNotFound)
  end.

Definition instanceID (r : Request) : InstanceID :=
  {| AppName := var r "name"; InstanceName := HeaderGet r "X-Router-Instance" |}.

Definition getBackend (a : RouterAPI) (r : Request) : World -> Outcome * World :=
  handle (
    svc <- try (ingressService a (var r "mode")) ;;
    res <- invoke (CallGetAddresses (ptr svc) (instanceID r))
                  (GetAddresses svc (instanceID r)) ;;
    check (snd res) ;;;
    let addrs := fst res in
    let address := match addrs with x :: _ => x | [] => "" end in
    Encode (getBackendResponse address addrs)).

Definition addBackend (a : RouterAPI) (r : Request) : World -> Outcome * World :=
  handle (
    let routerOpts :=
      {| Domain := ""; Route := ""; HeaderOpts := HeaderValues r "X-Router-Opt";
         Others := zeroOthers |} in
    routerOpts <- try (decodeOpts (ReqBody r) routerOpts) ;;
    let routerOpts :=
      if (0 <? String.length (Domain routerOpts))%nat &&
         (String.length (Route routerOpts) =? 0)%nat
      then {| Domain := Domain routerOpts; Route := "/";
              HeaderOpts := HeaderOpts routerOpts; Others := Others routerOpts |}
      else routerOpts in
    svc <- try (ingressService a (var r "mode")) ;;
    invoke (CallCreate (ptr svc) (instanceID r) routerOpts)
           (Create svc (instanceID r) routerOpts)).

Definition updateBackend (a : RouterAPI) (r : Request) : World -> Outcome * World :=
  handle (ret None).

Definition removeBackend (a : RouterAPI) (r : Request) : World -> Outcome * World :=
  handle (
    svc <- try (ingressService a (var r "mode")) ;;
    invoke (CallRemove (ptr svc) (instanceID r)) (Remove svc (instanceID r))).

Definition addRoutes (a : RouterAPI) (r : Request) : World -> Outcome * World :=
  handle (
    routesData <- try (decodeRoutes (ReqBody r)) ;;
    (if bool_decide (Prefix routesData ≠ "") then return_ None else ret tt) ;;;
    svc <- try (ingressService a (var r "mode")) ;;
    invoke (CallUpdate (ptr svc) (instanceID r) (ExtraData routesData))
           (Update svc (instanceID r) (ExtraData routesData))).

Definition removeRoutes (a : RouterAPI) (r : Request) : World -> Outcome * World :=
  handle (ret None).

Definition getRoutes (a : RouterAPI) (r : Request) : World -> Outcome * World :=
  handle (Encode (resp [])).

Definition swap (a : RouterAPI) (r : Request) : World -> Outcome * World :=
  handle (
    req <- match decodeSwap (ReqBody r) with
           | inl _ => return_ (Some (errorString "error parsing request"))
           | inr req => ret req
           end ;;
    (if bool_decide (Target req = "")
     then return_ (Some (httpError "empty target" StatusBadRequest))
     else ret tt) ;;;
    svc <- try (ingressService a (var r "mode")) ;;
    let src := instanceID r in
    let dst := {| InstanceName := InstanceName src; AppName := Target req |} in
    invoke (CallSwap (ptr svc) src dst) (Swap svc src dst)).

Definition info (a : RouterAPI) (r : Request) : World -> Outcome * World :=
  handle (
    svc <- try (ingressService a (var r "mode")) ;;
    opts <- invoke (CallSupportedOptions (ptr svc)) (SupportedOptions svc) ;;
    let allOpts := DescribedOptions in
    let info :=
      map_fold (fun k v (info : gmap string string) =>
                  let vv := if bool_decide (v = "") then default "" (allOpts !! k) else v in
                  <[k := vv]> info)
               ∅ opts in
    Encode (infoMap info)).

(** One iteration of the loop of [Healthcheck]. *)
Definition checkService (mode : string) (svc : Service) (errors : list string)
  : M (list string) :=
  match asHealthcheckable svc with
  | Some hc =>
      err <- invoke (CallHealthcheck (ptr svc)) hc ;;
      match err with
      | Some e =>
          ret (errors ++ ["failed to check IngressService " +:+ mode +:+ ": " +:+ Error e])
      | None => ret errors
      end
  | None => ret errors
  end.

(** [for mode, svc := range a.IngressServices], in the order [entries]. *)
Fixpoint rangeServices (entries : list (string * Service)) (errors : list string)
  : M (list string) :=
  match entries with
  | [] => ret errors
  | (mode, svc) :: entries' =>
      errors <- checkService mode svc errors ;;
      rangeServices entries' errors
  end.

(** Go leaves the iteration order of a map unspecified: [Healthcheck] takes
    the order in which [range] visits the registry, a permutation of its
    entries. *)
Definition Healthcheck (entries : list (string * Service)) : M unit :=
  errors <- rangeServices entries [] ;;
  if (0 <? length errors)%nat
  then onWriter (WriteHeader StatusInternalServerError) ;;;
       _ <- WriteBytes (Join errors " - ") ;;
       ret tt
  else _ <- WriteBytes "WORKING" ;;
       ret tt.

(** [svc.(router.ServiceTLS)] and [svc.(router.ServiceCNAME)], unchecked *)
Definition assertTLS (svc : Service) : M ServiceTLS :=
  match asTLS svc with
  | Some tls => ret tls
  | None => panic
  end.

Definition assertCNAME (svc : Service) : M ServiceCNAME :=
  match asCNAME svc with
  | Some cn => ret cn
  | None => panic
  end.

Definition addCertificate (a : RouterAPI) (r : Request) : World -> Outcome * World :=
  handle (
    let certName := var r "certname" in
    cert <- try (decodeCert (ReqBody r)) ;;
    svc <- try (ingressService a (var r "mode")) ;;
    tls <- assertTLS svc ;;
    invoke (CallAddCertificate (ptr svc) (instanceID r) certName cert)
           (AddCertificate tls (instanceID r) certName cert)).

Definition getCertificate (a : RouterAPI) (r : Request) : World -> Outcome * World :=
  handle (
    let certName := var r "certname" in
    svc <- try (ingressService a (var r "mode")) ;;
    tls <- assertTLS svc ;;
    res <- invoke (CallGetCertificate (ptr svc) (instanceID r) certName)
                  (GetCertificate tls (instanceID r) certName) ;;
    match snd res with
    | Some err =>
        onWriter (WriteHeader StatusNotFound) ;;; return_ (Some err)
    | None =>
        b <- try (marshalCert (fst res)) ;;
        onWriter (HeaderSet "Content-Type" "application/json") ;;;
        WriteBytes b
    end).

Definition removeCertificate (a : RouterAPI) (r : Request) : World -> Outcome * World :=
  handle (
    let certName := var r "certname" in
    svc <- try (ingressService a (var r "mode")) ;;
    tls <- assertTLS svc ;;
    err <- invoke (CallRemoveCertificate (ptr svc) (instanceID r) certName)
                  (RemoveCertificate tls (instanceID r) certName) ;;
    (if err is Some _ then onWriter (WriteHeader StatusNotFound) else ret tt) ;;;
    ret err).

Definition setCname (a : RouterAPI) (r : Request) : World -> Outcome * World :=
  handle (
    let cname := var r "cname" in
    svc <- try (ingressService a (var r "mode")) ;;
    cn <- assertCNAME svc ;;
    err <- invoke (CallSetCname (ptr svc) (instanceID r) cname)
                  (SetCname cn (instanceID r) cname) ;;
    match err with
    | Some e =>
        (if Contains (Error e) "exists"
         then onWriter (WriteHeader StatusConflict)
         else ret tt) ;;;
        onWriter (WriteHeader StatusNotFound) ;;;
        ret err
    | None => ret err
    end).

Definition getCnames (a : RouterAPI) (r : Request) : World -> Outcome * World :=
  handle (
    svc <- try (ingressService a (var r "mode")) ;;
    cn <- assertCNAME svc ;;
    res <- invoke (CallGetCnames (ptr svc) (instanceID r))
                  (GetCnames cn (instanceID r)) ;;
    check (snd res) ;;;
    b <- try (marshalCnames (fst res)) ;;
    onWriter (HeaderSet "Content-Type" "application/json") ;;;
    WriteBytes b).

Definition unsetCname (a : RouterAPI) (r : Request) : World -> Outcome * World :=
  handle (
    let cname := var r "cname" in
    svc <- try (ingressService a (var r "mode")) ;;
    cn <- assertCNAME svc ;;
    invoke (CallUnsetCname (ptr svc) (instanceID r) cname)
           (UnsetCname cn (instanceID r) cname)).

Definition supportTLS (a : RouterAPI) (r : Request) : World -> Outcome * World :=
  handle (
    svc <- try (ingressService a (var r "mode")) ;;
    match asTLS svc with
    | None =>
        onWriter (WriteHeader StatusNotFound) ;;;
        WriteBytes "No TLS Capabilities"
    | Some _ => WriteBytes "OK"
    end).

Definition supportCNAME (a : RouterAPI) (r : Request) : World -> Outcome * World :=
  handle (
    svc <- try (ingressService a (var r "mode")) ;;
    match asCNAME svc with
    | None =>
        onWriter (WriteHeader StatusNotFound) ;;;
        WriteBytes "No CNAME Capabilities"
    | Some _ => WriteBytes "OK"
    end).

(** The two closures [registerRoutes] installs for [/support/info] and
    [/support/prefix]. *)
Definition supportInfo (a : RouterAPI) (r : Request) : World -> Outcome * World :=
  handle (onWriter (WriteHeader StatusOK) ;;; ret None).

Definition supportPrefix (a : RouterAPI) (r : Request) : World -> Outcome * World :=
  handle (onWriter (WriteHeader StatusOK) ;;; ret None).

(** [registerRoutes]: the route table, in registration order, as path
    pattern, method and handler. How gorilla/mux matches a request against
    the patterns is outside this file. *)
Definition registerRoutes (a : RouterAPI)
  : list (string * string * (Request -> World -> Outcome * World)) :=
  [ ("/backend/{name}", "GET", getBackend a);
    ("/backend/{name}", "POST", addBackend a);
    ("/backend/{name}", "PUT", updateBackend a);
    ("/backend/{name}", "DELETE", removeBackend a);
    ("/backend/{name}/routes", "GET", getRoutes a);
    ("/backend/{name}/routes", "POST", addRoutes a);
    ("/backend/{name}/routes/remove", "POST", removeRoutes a);
    ("/backend/{name}/swap", "POST", swap a);
    ("/info", "GET", info a);
    ("/backend/{name}/certificate/{certname}", "PUT", addCertificate a);
    ("/backend/{name}/certificate/{certname}", "GET", getCertificate a);
    ("/backend/{name}/certificate/{certname}", "DELETE", removeCertificate a);
    ("/backend/{name}/cname/{cname}", "POST", setCname a);
    ("/backend/{name}/cname", "GET", getCnames a);
    ("/backend/{name}/cname/{cname}", "DELETE", unsetCname a);
    ("/support/tls", "GET", supportTLS a);
    ("/support/cname", "GET", supportCNAME a);
    ("/support/info", "GET", supportInfo a);
    ("/support/prefix", "GET", supportPrefix a) ].

(** *** Vocabulary of the properties *)

(** The mode of a request is unknown when the name it stands for, the
    default mode if it is empty, is not a key of the registry. *)
Definition unknownMode (a : RouterAPI) (mode : string) : Prop :=
  IngressServices a !! (if decide (mode = "") then DefaultMode a else mode) = None.

(** What the wrapper around a handler may still do to [w] once the handler
    has returned. *)
Inductive WriterOp :=
| OpWriteHeader (code : Z)
| OpWrite (c : Chunk)
| OpHeaderSet (k v : string).

Definition applyOp (w : ResponseWriter) (op : WriterOp) : ResponseWriter :=
  match op with
  | OpWriteHeader code => WriteHeader code w
  | OpWrite c => Write c w
  | OpHeaderSet k v => HeaderSet k v w
  end.

Definition applyOps (ops : list WriterOp) (w : ResponseWriter) : ResponseWriter :=
  fold_left applyOp ops w.

(** The health probes as the specification words them: visit the
    Providers in turn, probe each one that implements the Healthcheck
    capability, and keep a labelled failure, mode and error, for each probe
    that errs. *)
Fixpoint healthFailures (entries : list (string * Service)) (ps : PS)
  : list (string * error) * PS :=
  match entries with
  | [] => ([], ps)
  | (mode, svc) :: entries' =>
      match asHealthcheckable svc with
      | None => healthFailures entries' ps
      | Some hc =>
          let '(err, ps') := hc ps in
          let '(failures, ps'') := healthFailures entries' ps' in
          (match err with
           | Some e => (mode, e) :: failures
           | None => failures
           end, ps'')
      end
  end.

Definition failureMessage (f : string * error) : string :=
  "failed to check IngressService " +:+ fst f +:+ ": " +:+ Error (snd f).

Definition healthcheckable (entry : string * Service) : bool :=
  match asHealthcheckable (snd entry) with
  | Some _ => true
  | None => false
  end.

(** The handlers whose code contains an unchecked type assertion, by the
    capability they assert. *)
Definition lacksTLS (a : RouterAPI) (r : Request) : Prop :=
  exists svc, ingressService a (var r "mode") = inr svc /\ asTLS svc = None.

Definition lacksCNAME (a : RouterAPI) (r : Request) : Prop :=
  exists svc, ingressService a (var r "mode") = inr svc /\ asCNAME svc = None.

(** The request [r] with its mode variable set to [mode]. *)
Definition withMode (mode : string) (r : Request) : Request :=
  {| Vars := <["mode" := mode]> (Vars r); Header := Header r; ReqBody := ReqBody r |}.

(** The probes of [entries] are steady when the result of each does not
    depend on the Provider state it runs in. *)
Definition steadyProbes (entries : list (string * Service)) : Prop :=
  forall mode svc hc,
    (mode, svc) ∈ entries -> asHealthcheckable svc = Some hc ->
    forall ps ps', fst (hc ps) = fst (hc ps').

(** The failure of one entry, probed in state [ps]. *)
Definition probeIn (ps : PS) (entry : string * Service) : option (string * error) :=
  match asHealthcheckable (snd entry) with
  | Some hc =>
      match fst (hc ps) with
      | Some e => Some (fst entry, e)
      | None => None
      end
  | None => None
  end.

End Api.


(** ** A concrete registry

    Three Providers over a Provider state that counts the calls served:
    [ingress] has every capability, [istio] fails its health probe and
    refuses every CNAME as taken, [lb] has the mandatory methods only. The
    request bodies are read by a decoder of a few fixed payloads. *)

Module Fixture.

Definition tick {A : Type} (x : A) (served : nat) : A * nat := (x, S served).

Definition tls : @ServiceTLS nat string :=
  {| AddCertificate := fun _ _ _ => tick None;
     GetCertificate := fun _ _ => tick ("-----BEGIN CERTIFICATE-----", None);
     RemoveCertificate := fun _ _ => tick None |}.

Definition cname (res : option error) : @ServiceCNAME nat (list string) :=
  {| SetCname := fun _ _ => tick res;
     GetCnames := fun _ => tick (["www.example.org"], None);
     UnsetCname := fun _ _ => tick None |}.

Definition provider (p : nat) (t : option (@ServiceTLS nat string))
    (c : option (@ServiceCNAME nat (list string)))
    (health : option (option error))
  : @Service nat unit string string (list string) :=
  {| ptr := p;
     Create := fun _ _ => tick None;
     Remove := fun _ => tick None;
     Update := fun _ _ => tick None;
     Swap := fun _ _ => tick None;
     GetAddresses := fun _ => tick (["10.0.0.1"], None);
     SupportedOptions := tick (<["opt1" := ""]> (<["opt2" := "custom"]> ∅));
     asTLS := t;
     asCNAME := c;
     asHealthcheckable := (fun res => tick res) <$> health |}.

Definition ingress := provider 1 (Some tls) (Some (cname None)) (Some None).
Definition istio :=
  provider 2 None (Some (cname (Some (errorString "cname already exists"))))
           (Some (Some (errorString "timeout"))).
Definition lb := provider 3 None None None.
Definition nginx :=
  provider 4 None (Some (cname (Some (errorString "backend not found")))) (Some None).

Definition api : @RouterAPI nat unit string string (list string) :=
  {| DefaultMode := "ingress";
     IngressServices :=
       <["ingress" := ingress]> (<["istio" := istio]> (<["lb" := lb]> (<["nginx" := nginx]> ∅))) |}.

Definition healthy : @RouterAPI nat unit string string (list string) :=
  {| DefaultMode := "ingress";
     IngressServices := <["ingress" := ingress]> (<["lb" := lb]> ∅) |}.

Definition describedOptions : gmap string string :=
  <["opt1" := "default1"]> (<["opt3" := "default3"]> ∅).

Definition httpErrorText (body : string) (status : Z) : string := body.

Definition decodeSwap (body : string) : error + swapReq :=
  if String.eqb body "" then inl (errorString "EOF")
  else if String.eqb body "{}" then inr {| Target := "" |}
  else inr {| Target := body |}.

Definition decodeRoutes (body : string) : error + @RoutesRequestData string :=
  if String.eqb body "" then inl (errorString "EOF")
  else if String.eqb body "{}" then inr {| Prefix := ""; ExtraData := "" |}
  else inr {| Prefix := body; ExtraData := "" |}.

Definition decodeOpts (body : string) (into : @Opts unit) : error + @Opts unit :=
  if String.eqb body "" then inl (errorString "EOF")
  else if String.eqb body "domain" then
    inr {| Domain := "example.org"; Route := Route into;
           HeaderOpts := HeaderOpts into; Others := Others into |}
  else if String.eqb body "domain+route" then
    inr {| Domain := "example.org"; Route := "/app";
           HeaderOpts := HeaderOpts into; Others := Others into |}
  else inr into.

Definition decodeCert (body : string) : error + string :=
  if String.eqb body "" then inl (errorString "EOF") else inr body.

(** A request for app [myapp], instance [canary], under [mode]. *)
Definition request (mode body : string) : Request :=
  {| Vars := <["name" := "myapp"]> (<["mode" := mode]>
               (<["cname" := "www.example.org"]> (<["certname" := "default"]> ∅)));
     Header := <["X-Router-Instance" := ["canary"]]> (<["X-Router-Opt" := ["a=b"; "c=d"]]> ∅);
     ReqBody := body |}.

Definition myapp : InstanceID := {| AppName := "myapp"; InstanceName := "canary" |}.

Definition marshalCert (cert : string) : error + string :=
  if String.eqb cert "" then inl (errorString "empty certificate") else inr cert.

Definition marshalCnames (names : list string) : error + string := inr (Join names ",").

(** A Provider whose backend has no address yet. *)
Definition provisioning : @Service nat unit string string (list string) :=
  {| ptr := 5;
     Create := fun _ _ => tick None;
     Remove := fun _ => tick (Some (errorString "backend not found"));
     Update := fun _ _ => tick None;
     Swap := fun _ _ => tick None;
     GetAddresses := fun _ => tick ([], None);
     SupportedOptions := tick ∅;
     asTLS := Some {| AddCertificate := fun _ _ _ => tick None;
                      GetCertificate :=
                        fun _ _ => tick ("", Some (errorString "certificate not found"));
                      RemoveCertificate :=
                        fun _ _ => tick (Some (errorString "certificate not found")) |};
     asCNAME := Some {| SetCname := fun _ _ => tick None;
                        GetCnames := fun _ => tick ([], Some (errorString "backend not found"));
                        UnsetCname := fun _ _ => tick None |};
     asHealthcheckable := None |}.

Definition staging : @RouterAPI nat unit string string (list string) :=
  {| DefaultMode := "pending";
     IngressServices := <["pending" := provisioning]> (<["ingress" := ingress]> ∅) |}.

Definition world0 : @World nat unit string string :=
  {| providers := 0%nat; calls := []; writer := NewRecorder |}.

(** A world whose connection is gone: every write reports an error. *)
Definition hangup : @World nat unit string string :=
  {| providers := 0%nat; calls := [];
     writer := {| wroteHeader := false; Code := StatusOK; HeaderMap := ∅; Written := [];
                  superfluous := []; writeErr := Some (errorString "broken pipe") |} |}.

Definition haproxy :=
  provider 6 None None (Some (Some (errorString "connection refused"))).

(** A registry with two Providers whose health probe fails. *)
Definition degraded : @RouterAPI nat unit string string (list string) :=
  {| DefaultMode := "ingress";
     IngressServices :=
       <["haproxy" := haproxy]> (<["ingress" := ingress]> (<["istio" := istio]> ∅)) |}.

Definition routes :=
  registerRoutes tt decodeOpts decodeRoutes decodeSwap decodeCert marshalCert marshalCnames
                 httpErrorText describedOptions api.

End Fixture.

(** ** Properties *)

Section Properties.

Context {PS OtherOpts RoutesRequestExtraData CertData CnamesResp : Type}.
Context (zeroOthers : OtherOpts).
Context (decodeOpts : string -> @Opts OtherOpts -> error + @Opts OtherOpts).
Context (decodeRoutes : string -> error + @RoutesRequestData RoutesRequestExtraData).
Context (decodeSwap : string -> error + swapReq).
Context (decodeCert : string -> error + CertData).
Context (marshalCert : CertData -> error + string).
Context (marshalCnames : CnamesResp -> error + string).
Context (httpErrorText : string -> Z -> string).
Context (DescribedOptions : gmap string string).

Local Abbreviation Service := (@Service PS OtherOpts RoutesRequestExtraData CertData CnamesResp).
Local Abbreviation RouterAPI := (@RouterAPI PS OtherOpts RoutesRequestExtraData CertData CnamesResp).
Local Abbreviation World := (@World PS OtherOpts RoutesRequestExtraData CertData).
Local Abbreviation NotFound := (httpError "" StatusNotFound).

Implicit Types (a : RouterAPI) (r : Request) (w : World) (svc : Service).

Ltac run :=
  unfold handle, Encode, WriteBytes, writeChunk, bind, try, check, return_, ret, invoke,
    onWriter, panic, assertTLS, assertCNAME; simpl.

(** *** Strings *)

Lemma length_zero_iff_empty (s : string) : (String.length s =? 0)%nat = true <-> s = "".
Proof. destruct s; simpl; split; intros H; congruence. Qed.

Lemma length_pos_iff_nonempty (s : string) : (0 <? String.length s)%nat = true <-> s <> "".
Proof. destruct s; unfold Nat.ltb; simpl; split; intros H; congruence. Qed.

Lemma append_nil (t : string) : "" +:+ t = t.
Proof. reflexivity. Qed.

Lemma append_cons (c : Ascii.ascii) (s t : string) : String c s +:+ t = String c (s +:+ t).
Proof. reflexivity. Qed.

Lemma prefix_spec (p s : string) :
  String.prefix p s = true <-> exists post, s = p +:+ post.
Proof.
  revert s. induction p as [|c p IH]; intros s; destruct s as [|d s]; simpl.
  - split; [intros _; exists ""; reflexivity | reflexivity].
  - split; [intros _; exists (String d s); reflexivity | reflexivity].
  - split; [discriminate | intros [post H]; rewrite append_cons in H; discriminate].
  - destruct (Ascii.ascii_dec c d) as [->|Hne].
    + rewrite IH. split; intros [post H]; exists post;
        rewrite append_cons in *; congruence.
    + split; [discriminate | intros [post H]; rewrite append_cons in H; congruence].
Qed.

(** [Contains] is substring containment, as strings.Contains. *)
Lemma Contains_spec (s substr : string) :
  Contains s substr = true <-> exists pre post, s = pre +:+ substr +:+ post.
Proof.
  induction s as [|c s IH].
  - change (Contains "" substr) with (String.prefix substr "" || false).
    rewrite orb_false_r, prefix_spec. split.
    + intros [post H]. exists "", post. exact H.
    + intros (pre & post & H). destruct pre; [|rewrite append_cons in H; discriminate].
      exists post. exact H.
  - change (Contains (String c s) substr)
      with (String.prefix substr (String c s) || Contains s substr).
    rewrite orb_true_iff, prefix_spec, IH. split.
    + intros [[post H]|(pre & post & H)].
      * exists "", post. exact H.
      * exists (String c pre), post. rewrite append_cons, H. reflexivity.
    + intros (pre & post & H). destruct pre as [|d pre].
      * left. exists post. exact H.
      * right. exists pre, post. rewrite append_cons in H. congruence.
Qed.

Lemma append_assoc (s t u : string) : (s +:+ t) +:+ u = s +:+ (t +:+ u).
Proof.
  induction s as [|c s IH]; [reflexivity|].
  rewrite !append_cons, IH. reflexivity.
Qed.

(** [Join] puts the separator between consecutive elements and nowhere
    else, as strings.Join. *)
Lemma Join_Joined (elems : list string) (sep : string) : Joined sep elems (Join elems sep).
Proof.
  induction elems as [|x [|y rest] IH].
  - constructor.
  - constructor.
  - change (Join (x :: y :: rest) sep) with (x +:+ sep +:+ Join (y :: rest) sep).
    constructor. exact IH.
Qed.

Lemma Joined_Join (elems : list string) (sep s : string) :
  Joined sep elems s -> s = Join elems sep.
Proof.
  induction 1 as [|x|x y rest s _ IH]; [reflexivity | reflexivity |].
  rewrite IH. reflexivity.
Qed.

Lemma Join_app (l1 l2 : list string) (sep : string) :
  l1 <> [] -> l2 <> [] ->
  Join (l1 ++ l2) sep = Join l1 sep +:+ sep +:+ Join l2 sep.
Proof.
  intros H1 H2. induction l1 as [|x [|x' l1] IH]; [contradiction| |].
  - destruct l2 as [|y l2]; [contradiction|]. reflexivity.
  - change (Join ((x :: x' :: l1) ++ l2) sep)
      with (x +:+ sep +:+ Join ((x' :: l1) ++ l2) sep).
    rewrite IH by discriminate.
    change (Join (x :: x' :: l1) sep) with (x +:+ sep +:+ Join (x' :: l1) sep).
    rewrite !append_assoc. reflexivity.
Qed.

(** *** The response writer: the status is fixed by the first WriteHeader *)

Lemma WriteHeader_fresh code (rw : ResponseWriter) :
  wroteHeader rw = false ->
  Code (WriteHeader code rw) = code /\ wroteHeader (WriteHeader code rw) = true.
Proof. intros H. unfold WriteHeader. rewrite H. split; reflexivity. Qed.

Lemma writeErr_WriteHeader code (rw : ResponseWriter) :
  writeErr (WriteHeader code rw) = writeErr rw.
Proof. unfold WriteHeader. destruct (wroteHeader rw); reflexivity. Qed.

Lemma writeErr_Write c (rw : ResponseWriter) : writeErr (Write c rw) = writeErr rw.
Proof. unfold Write. destruct (wroteHeader rw); reflexivity. Qed.

Lemma applyOp_committed (rw : ResponseWriter) op :
  wroteHeader rw = true ->
  wroteHeader (applyOp rw op) = true /\ Code (applyOp rw op) = Code rw.
Proof.
  intros H. destruct op; simpl; unfold WriteHeader, Write, HeaderSet;
    rewrite ?H; simpl; auto.
Qed.

Lemma applyOps_committed ops : forall rw : ResponseWriter,
  wroteHeader rw = true -> Code (applyOps ops rw) = Code rw.
Proof.
  unfold applyOps. induction ops as [|op ops IH]; intros rw H; simpl.
  - reflexivity.
  - destruct (applyOp_committed rw op H) as [Hw Hc].
    rewrite IH by exact Hw. exact Hc.
Qed.

(** *** Mode resolution *)

Lemma ingressService_unknown a mode :
  unknownMode a mode -> ingressService a mode = inl NotFound.
Proof. unfold unknownMode, ingressService. intros ->. reflexivity. Qed.

Lemma ingressService_known a mode svc :
  ingressService a mode = inr svc ->
  IngressServices a !! (if decide (mode = "") then DefaultMode a else mode) = Some svc.
Proof.
  unfold ingressService.
  destruct (IngressServices a !! _) as [s|]; [|discriminate].
  intros [= ->]. reflexivity.
Qed.

(** C5 (resolve): the empty mode resolves as the default mode does; a mode
    whose name (the default mode, for the empty one) is not in the registry
    fails with [httpError{Status: NotFound}], so does every non-empty name
    absent from the registry, while a registered name yields its Provider;
    and resolution reads the registry only: run in any world, it leaves the
    world as it was. *)
Theorem ingressService_resolve a :
  ingressService a "" = ingressService a (DefaultMode a) /\
  (forall mode, unknownMode a mode -> ingressService a mode = inl NotFound) /\
  (forall mode, mode <> "" -> IngressServices a !! mode = None ->
                ingressService a mode = inl NotFound) /\
  (forall mode svc, mode <> "" -> IngressServices a !! mode = Some svc ->
                    ingressService a mode = inr svc) /\
  (forall mode w, snd (try (ingressService a mode) w) = w).
Proof.
  repeat split.
  - unfold ingressService. simpl.
    destruct (decide (DefaultMode a = "")) as [->|]; reflexivity.
  - apply ingressService_unknown.
  - intros mode Hne Habs. apply ingressService_unknown.
    unfold unknownMode. destruct (decide (mode = "")); [contradiction | exact Habs].
  - intros mode svc Hne Hin. unfold ingressService.
    destruct (decide (mode = "")); [contradiction|]. rewrite Hin. reflexivity.
  - intros mode w. destruct (ingressService a mode); reflexivity.
Qed.

(** *** Routes and swap *)

(** C9 (getRoutes): whatever the registry, the request and the world,
    [getRoutes] encodes a response whose address list is empty, returns
    the error of that write (nil on a sound connection), and leaves the
    Provider state and the call log untouched. *)
Theorem getRoutes_empty a r w :
  fst (getRoutes a r w) = Returns (writeErr (writer w)) /\
  Written (writer (snd (getRoutes a r w))) = Written (writer w) ++ [Encoded (resp [])] /\
  calls (snd (getRoutes a r w)) = calls w /\
  providers (snd (getRoutes a r w)) = providers w.
Proof.
  unfold getRoutes. run. unfold Write. simpl.
  destruct (wroteHeader (writer w)); auto.
Qed.

(** C1 (swap): with a decoded request, an empty target returns
    [httpError{"empty target", BadRequest}] and leaves the world, hence the
    call log, as it was; a non-empty target, on a mode that resolves to
    [svc], adds exactly one call to the log, [svc.Swap(src, dst)] with
    [src] the instance of the request and [dst] the target under [src]'s
    instance name, and returns what that call returned. *)
Theorem swap_dispatch a r w req :
  decodeSwap (ReqBody r) = inr req ->
  (Target req = "" ->
   swap decodeSwap a r w =
     (Returns (Some (httpError "empty target" StatusBadRequest)), w)) /\
  (forall svc,
     Target req <> "" ->
     ingressService a (var r "mode") = inr svc ->
     let src := instanceID r in
     let dst := {| AppName := Target req; InstanceName := InstanceName src |} in
     swap decodeSwap a r w =
       (Returns (fst (Swap svc src dst (providers w))),
        {| providers := snd (Swap svc src dst (providers w));
           calls := calls w ++ [CallSwap (ptr svc) src dst];
           writer := writer w |})).
Proof.
  intros Hdec. split.
  - intros Ht. unfold swap. run. rewrite Hdec, Ht. reflexivity.
  - intros svc Ht Hsvc. unfold swap. run. rewrite Hdec.
    rewrite bool_decide_eq_false_2 by exact Ht. rewrite Hsvc.
    destruct (Swap svc _ _ _); reflexivity.
Qed.

(** C4 (addRoutes): with a decoded request, a non-empty prefix returns nil
    and leaves the world, hence the call log, as it was; the empty prefix,
    on a mode that resolves to [svc], adds exactly the call
    [svc.Update(id, ExtraData)] and returns what that call returned. *)
Theorem addRoutes_prefix a r w routesData :
  decodeRoutes (ReqBody r) = inr routesData ->
  (Prefix routesData <> "" ->
   addRoutes decodeRoutes a r w = (Returns None, w)) /\
  (forall svc,
     Prefix routesData = "" ->
     ingressService a (var r "mode") = inr svc ->
     let id := instanceID r in
     addRoutes decodeRoutes a r w =
       (Returns (fst (Update svc id (ExtraData routesData) (providers w))),
        {| providers := snd (Update svc id (ExtraData routesData) (providers w));
           calls := calls w ++ [CallUpdate (ptr svc) id (ExtraData routesData)];
           writer := writer w |})).
Proof.
  intros Hdec. split.
  - intros Hp. unfold addRoutes. run. rewrite Hdec.
    rewrite bool_decide_eq_true_2 by exact Hp. reflexivity.
  - intros svc Hp Hsvc. unfold addRoutes. run. rewrite Hdec, Hp, Hsvc. simpl.
    destruct (Update svc _ _ _); reflexivity.
Qed.

(** *** Backend creation *)

(** C6 (addBackend): let [opts] be the options after the body is decoded
    over the header-seeded value, on a mode that resolves to [svc]. With a
    non-empty Domain and an empty Route, the one call of the request is
    [svc.Create(id, opts')] where [opts'] is [opts] with Route "/"; with a
    non-empty Route (or an empty Domain), it is [svc.Create(id, opts)],
    the options unchanged. The handler returns what Create returned. *)
Theorem addBackend_route a r w opts svc :
  decodeOpts (ReqBody r)
    {| Domain := ""; Route := ""; HeaderOpts := HeaderValues r "X-Router-Opt";
       Others := zeroOthers |} = inr opts ->
  ingressService a (var r "mode") = inr svc ->
  let id := instanceID r in
  let created (o : Opts) :=
    (Returns (fst (Create svc id o (providers w))),
     {| providers := snd (Create svc id o (providers w));
        calls := calls w ++ [CallCreate (ptr svc) id o];
        writer := writer w |}) in
  (Domain opts <> "" -> Route opts = "" ->
   addBackend zeroOthers decodeOpts a r w =
     created {| Domain := Domain opts; Route := "/";
                HeaderOpts := HeaderOpts opts; Others := Others opts |}) /\
  (Route opts <> "" -> addBackend zeroOthers decodeOpts a r w = created opts) /\
  (Domain opts = "" -> addBackend zeroOthers decodeOpts a r w = created opts).
Proof.
  intros Hdec Hsvc id created. unfold created, addBackend. run. rewrite Hdec.
  repeat split.
  - intros Hd Hr.
    apply length_pos_iff_nonempty in Hd. rewrite Hd, Hr. simpl. rewrite Hsvc.
    destruct (Create svc _ _ _); reflexivity.
  - intros Hr.
    assert ((String.length (Route opts) =? 0)%nat = false) as ->.
    { destruct (String.length (Route opts) =? 0)%nat eqn:E; [|reflexivity].
      apply length_zero_iff_empty in E. contradiction. }
    rewrite andb_false_r, Hsvc. destruct (Create svc _ _ _); reflexivity.
  - intros Hd. rewrite Hd. simpl. rewrite Hsvc.
    destruct (Create svc _ _ _); reflexivity.
Qed.

(** *** Option descriptions *)

Lemma info_fold_lookup (allOpts opts : gmap string string) (k : string) :
  map_fold (fun k v (info : gmap string string) =>
              let vv := if bool_decide (v = "") then default "" (allOpts !! k) else v in
              <[k := vv]> info) ∅ opts !! k =
  (fun v => if bool_decide (v = "") then default "" (allOpts !! k) else v) <$> opts !! k.
Proof.
  revert k.
  apply (map_fold_weak_ind (fun (res opts : gmap string string) =>
    forall k, res !! k =
      (fun v => if bool_decide (v = "") then default "" (allOpts !! k) else v) <$> opts !! k)).
  - intros k. rewrite !lookup_empty. reflexivity.
  - intros i x m res Hfresh IH k. simpl.
    destruct (decide (i = k)) as [->|Hne].
    + rewrite !lookup_insert_eq. reflexivity.
    + rewrite !lookup_insert_ne by exact Hne. apply IH.
Qed.

(** C7 (info): on a mode that resolves to [svc], [info] asks the Provider
    for its SupportedOptions once and encodes a mapping [described] with
    exactly the keys of SupportedOptions: a key with a non-empty
    description keeps it, a key with an empty description gets the global
    description of that key (the empty string when there is none), and a
    key that SupportedOptions lacks is absent, whatever the global table
    says. The handler returns the error of that write, nil on a sound
    connection. *)
Theorem info_descriptions a r w svc :
  ingressService a (var r "mode") = inr svc ->
  let opts := fst (SupportedOptions svc (providers w)) in
  exists described : gmap string string,
    info DescribedOptions a r w =
      (Returns (writeErr (writer w)),
       {| providers := snd (SupportedOptions svc (providers w));
          calls := calls w ++ [CallSupportedOptions (ptr svc)];
          writer := Write (Encoded (infoMap described)) (writer w) |}) /\
    dom described = dom opts /\
    (forall k v, opts !! k = Some v -> v <> "" -> described !! k = Some v) /\
    (forall k, opts !! k = Some "" ->
               described !! k = Some (default "" (DescribedOptions !! k))) /\
    (forall k d, opts !! k = Some "" -> DescribedOptions !! k = Some d ->
                 described !! k = Some d) /\
    (forall k, opts !! k = None -> described !! k = None).
Proof.
  intros Hsvc opts. unfold info. run. rewrite Hsvc. subst opts.
  destruct (SupportedOptions svc (providers w)) as [opts ps]. simpl.
  eexists. split; [reflexivity|].
  repeat split.
  - apply set_eq. intros k. rewrite !elem_of_dom, info_fold_lookup.
    rewrite fmap_is_Some. reflexivity.
  - intros k v Hk Hv. rewrite info_fold_lookup, Hk. simpl.
    rewrite bool_decide_eq_false_2 by exact Hv. reflexivity.
  - intros k Hk. rewrite info_fold_lookup, Hk. reflexivity.
  - intros k d Hk Hd. rewrite info_fold_lookup, Hk. simpl. rewrite Hd. reflexivity.
  - intros k Hk. rewrite info_fold_lookup, Hk. reflexivity.
Qed.

(** *** The health aggregate *)

Lemma rangeServices_failures (entries : list (string * Service)) :
  forall (errors : list string) w,
    rangeServices httpErrorText entries errors w =
      (Next (errors ++ map (failureMessage httpErrorText)
                           (fst (healthFailures entries (providers w)))),
       {| providers := snd (healthFailures entries (providers w));
          calls := calls w ++ map (fun e => CallHealthcheck (ptr (snd e)))
                                  (List.filter healthcheckable entries);
          writer := writer w |}).
Proof.
  induction entries as [|[mode svc] entries IH]; intros errors w.
  - simpl. unfold ret. rewrite !app_nil_r. destruct w; reflexivity.
  - simpl. unfold healthcheckable, checkService, bind. simpl.
    destruct (asHealthcheckable svc) as [hc|].
    + unfold invoke, ret. destruct (hc (providers w)) as [err ps] eqn:Hhc.
      destruct err as [e|]; rewrite IH; simpl;
        destruct (healthFailures entries ps) as [failures ps']; simpl;
        rewrite <- ?app_assoc; reflexivity.
    + unfold ret. rewrite IH. reflexivity.
Qed.

Lemma healthFailures_sublist (entries : list (string * Service)) :
  forall ps, sublist (map fst (fst (healthFailures entries ps))) (map fst entries).
Proof.
  induction entries as [|[mode svc] entries IH]; intros ps; simpl.
  - constructor.
  - destruct (asHealthcheckable svc) as [hc|].
    + destruct (hc ps) as [err ps']. specialize (IH ps').
      destruct (healthFailures entries ps') as [failures ps'']. simpl in *.
      destruct err; simpl; [apply sublist_skip | apply sublist_cons]; exact IH.
    + apply sublist_cons, IH.
Qed.

Lemma healthFailures_elem (entries : list (string * Service)) :
  forall ps mode e,
    (mode, e) ∈ fst (healthFailures entries ps) ->
    exists svc, (mode, svc) ∈ entries /\ healthcheckable (mode, svc) = true.
Proof.
  induction entries as [|[m svc] entries IH]; intros ps mode e; simpl.
  - intros H. inversion H.
  - unfold healthcheckable at 1. simpl.
    destruct (asHealthcheckable svc) as [hc|] eqn:Hhc.
    + destruct (hc ps) as [err ps']. specialize (IH ps' mode e).
      destruct (healthFailures entries ps') as [failures ps'']. simpl in *.
      destruct err as [e'|].
      * intros [Heq|Hin]%elem_of_cons.
        -- injection Heq as -> ->. exists svc. split; [left|].
           unfold healthcheckable. simpl. rewrite Hhc. reflexivity.
        -- destruct (IH Hin) as (s & Hs & Hc). exists s. split; [right; exact Hs | exact Hc].
      * intros Hin. destruct (IH Hin) as (s & Hs & Hc).
        exists s. split; [right; exact Hs | exact Hc].
    + intros Hin. destruct (IH ps mode e Hin) as (s & Hs & Hc).
      exists s. split; [right; exact Hs | exact Hc].
Qed.

Lemma Healthcheck_run (entries : list (string * Service)) w :
  Healthcheck httpErrorText entries w =
    (Next tt,
     {| providers := snd (healthFailures entries (providers w));
        calls := calls w ++ map (fun e => CallHealthcheck (ptr (snd e)))
                                (List.filter healthcheckable entries);
        writer :=
          match fst (healthFailures entries (providers w)) with
          | [] => Write (Bytes "WORKING") (writer w)
          | failures =>
              Write (Bytes (Join (map (failureMessage httpErrorText) failures) " - "))
                    (WriteHeader StatusInternalServerError (writer w))
          end |}).
Proof.
  unfold Healthcheck, bind. rewrite rangeServices_failures. simpl.
  destruct (fst (healthFailures entries (providers w))); reflexivity.
Qed.

(** C8 (Healthcheck): let [entries] be the registry in the order the loop
    visits it, and [failures] the probes that err, as the specification
    words them. [Healthcheck] completes; the calls it adds are one
    Healthcheck per visited Provider that implements the capability, so
    every such Provider of the registry is probed; with no failure the
    response is 200 with body "WORKING"; with a failure it is 500 with
    the messages "failed to check IngressService <mode>: <error>", one per
    failure, joined by " - ". Every failure names a mode of the registry
    whose Provider implements the capability, and no mode twice. The body
    is spelled out: it is the messages joined by " - " in the sense of
    [Joined]; one failure gives its message alone, two give the first
    message, " - " and the second, and each further failure adds " - " and
    its message. *)
Theorem Healthcheck_aggregate a (entries : list (string * Service)) w :
  entries ≡ₚ map_to_list (IngressServices a) ->
  wroteHeader (writer w) = false ->
  let failures := fst (healthFailures entries (providers w)) in
  let w' := snd (Healthcheck httpErrorText entries w) in
  fst (Healthcheck httpErrorText entries w) = Next tt /\
  calls w' = calls w ++ map (fun e => CallHealthcheck (ptr (snd e)))
                            (List.filter healthcheckable entries) /\
  (forall mode svc,
     IngressServices a !! mode = Some svc -> healthcheckable (mode, svc) = true ->
     CallHealthcheck (ptr svc) ∈ drop (length (calls w)) (calls w')) /\
  (failures = [] ->
   Code (writer w') = StatusOK /\
   Written (writer w') = Written (writer w) ++ [Bytes "WORKING"]) /\
  (failures <> [] ->
   Code (writer w') = StatusInternalServerError /\
   Written (writer w') =
     Written (writer w) ++ [Bytes (Join (map (failureMessage httpErrorText) failures) " - ")]) /\
  (forall mode e,
     (mode, e) ∈ failures ->
     exists svc, IngressServices a !! mode = Some svc /\ healthcheckable (mode, svc) = true) /\
  NoDup (map fst failures) /\
  (failures <> [] ->
   exists body,
     Written (writer w') = Written (writer w) ++ [Bytes body] /\
     Joined " - " (map (failureMessage httpErrorText) failures) body) /\
  (forall f, failures = [f] ->
     Written (writer w') = Written (writer w) ++ [Bytes (failureMessage httpErrorText f)]) /\
  (forall f g, failures = [f; g] ->
     Written (writer w') =
       Written (writer w) ++
         [Bytes (failureMessage httpErrorText f +:+ " - " +:+
                 failureMessage httpErrorText g)]) /\
  (forall f g rest, failures = f :: g :: rest ->
     Written (writer w') =
       Written (writer w) ++
         [Bytes (failureMessage httpErrorText f +:+ " - " +:+
                 Join (map (failureMessage httpErrorText) (g :: rest)) " - ")]).
Proof.
  intros Hperm Hfresh failures w'. subst failures w'.
  rewrite Healthcheck_run. simpl.
  set (failures := fst (healthFailures entries (providers w))).
  split; [|split; [|split; [|split; [|split; [|split; [|split; [|split;
    [|split; [|split]]]]]]]]].
  - reflexivity.
  - reflexivity.
  - intros mode svc Hin Hhc. rewrite drop_app_length.
    apply (list_elem_of_fmap_2 (fun e => CallHealthcheck (ptr (snd e))) _ (mode, svc)).
    apply list_elem_of_In, filter_In. split; [|exact Hhc].
    apply list_elem_of_In. rewrite Hperm. apply elem_of_map_to_list. exact Hin.
  - intros ->. unfold Write. rewrite Hfresh. split; reflexivity.
  - intros Hne. destruct failures as [|f failures']; [contradiction|].
    unfold Write, WriteHeader. rewrite Hfresh. simpl. split; reflexivity.
  - intros mode e Hin.
    destruct (healthFailures_elem entries (providers w) mode e Hin) as (svc & Hs & Hc).
    exists svc. split; [|exact Hc].
    apply elem_of_map_to_list. rewrite <- Hperm. exact Hs.
  - eapply (sublist_NoDup _ (map fst entries)); [|apply healthFailures_sublist].
    change (map fst entries) with (entries.*1).
    rewrite Hperm. apply NoDup_fst_map_to_list.
  - intros Hne. destruct failures as [|f failures'] eqn:Hf; [contradiction|].
    eexists. split; [|apply Join_Joined].
    unfold Write, WriteHeader. rewrite Hfresh. reflexivity.
  - intros f ->. unfold Write, WriteHeader. rewrite Hfresh. reflexivity.
  - intros f g ->. unfold Write, WriteHeader. rewrite Hfresh. reflexivity.
  - intros f g rest ->. unfold Write, WriteHeader. rewrite Hfresh. reflexivity.
Qed.

(** *** Optional capabilities *)

(** C3 (setCname): on a fresh response, when the resolved Provider has the
    CNAME capability and its SetCname returns the error [e], the handler
    returns [e] after that single call; if [e]'s text contains "exists"
    (the handler's classification of "already exists") the status of the
    response is Conflict, the later WriteHeader(NotFound) being
    superfluous; for every other error the status is NotFound; and the
    status is sent: nothing done to the writer afterwards changes it. *)
Theorem setCname_status a r w svc cn e ps :
  ingressService a (var r "mode") = inr svc ->
  asCNAME svc = Some cn ->
  SetCname cn (instanceID r) (var r "cname") (providers w) = (Some e, ps) ->
  wroteHeader (writer w) = false ->
  let out := setCname httpErrorText a r w in
  fst out = Returns (Some e) /\
  calls (snd out) = calls w ++ [CallSetCname (ptr svc) (instanceID r) (var r "cname")] /\
  (Contains (Error httpErrorText e) "exists" = true ->
   Code (writer (snd out)) = StatusConflict /\
   superfluous (writer (snd out)) = superfluous (writer w) ++ [StatusNotFound]) /\
  (Contains (Error httpErrorText e) "exists" = false ->
   Code (writer (snd out)) = StatusNotFound /\
   superfluous (writer (snd out)) = superfluous (writer w)) /\
  (forall ops, Code (applyOps ops (writer (snd out))) = Code (writer (snd out))).
Proof.
  intros Hsvc Hcn Hset Hfresh out. subst out.
  unfold setCname. run. rewrite Hsvc. simpl. rewrite Hcn. run. rewrite Hset. simpl.
  destruct (Contains (Error httpErrorText e) "exists") eqn:Hc; simpl;
    unfold WriteHeader; rewrite Hfresh; simpl.
  - repeat split; try reflexivity; try discriminate.
    intros ops. apply applyOps_committed. reflexivity.
  - repeat split; try reflexivity; try discriminate.
    intros ops. apply applyOps_committed. reflexivity.
Qed.

(** C2, the general fact behind it: on a Provider without the TLS
    capability, the type assertion of [addCertificate] fails, the handler
    panics, no error value is returned and the world is as it was. *)
Lemma addCertificate_without_TLS a r w svc cert :
  decodeCert (ReqBody r) = inr cert ->
  ingressService a (var r "mode") = inr svc ->
  asTLS svc = None ->
  addCertificate decodeCert a r w = (Panics, w).
Proof.
  intros Hdec Hsvc Htls. unfold addCertificate. run.
  rewrite Hdec, Hsvc. simpl. rewrite Htls. reflexivity.
Qed.

Lemma supportTLS_without_TLS a r w svc :
  ingressService a (var r "mode") = inr svc ->
  asTLS svc = None ->
  supportTLS a r w =
    (Returns (writeErr (writer w)),
     {| providers := providers w; calls := calls w;
        writer := Write (Bytes "No TLS Capabilities")
                        (WriteHeader StatusNotFound (writer w)) |}).
Proof.
  intros Hsvc Htls. unfold supportTLS. run. rewrite Hsvc. simpl.
  rewrite Htls. simpl. rewrite writeErr_WriteHeader. reflexivity.
Qed.

(** *** Unknown modes *)

(** C10 (unknown mode): when the mode of the request is unknown,
    [addRoutes] with a non-empty prefix still returns nil, the world
    untouched, since it returns before resolving the mode. Every other
    operation that reaches a Provider, [addRoutes] with the empty prefix
    included, resolves the mode first and, on a request whose payload it
    accepts, returns [httpError{Status: NotFound}] with the world
    untouched. *)
Theorem unknown_mode a r w :
  unknownMode a (var r "mode") ->
  (forall routesData,
     decodeRoutes (ReqBody r) = inr routesData -> Prefix routesData <> "" ->
     addRoutes decodeRoutes a r w = (Returns None, w)) /\
  (forall routesData,
     decodeRoutes (ReqBody r) = inr routesData -> Prefix routesData = "" ->
     addRoutes decodeRoutes a r w = (Returns (Some NotFound), w)) /\
  getBackend a r w = (Returns (Some NotFound), w) /\
  (forall opts,
     decodeOpts (ReqBody r)
       {| Domain := ""; Route := ""; HeaderOpts := HeaderValues r "X-Router-Opt";
          Others := zeroOthers |} = inr opts ->
     addBackend zeroOthers decodeOpts a r w = (Returns (Some NotFound), w)) /\
  removeBackend a r w = (Returns (Some NotFound), w) /\
  (forall req,
     decodeSwap (ReqBody r) = inr req -> Target req <> "" ->
     swap decodeSwap a r w = (Returns (Some NotFound), w)) /\
  info DescribedOptions a r w = (Returns (Some NotFound), w) /\
  (forall cert,
     decodeCert (ReqBody r) = inr cert ->
     addCertificate decodeCert a r w = (Returns (Some NotFound), w)) /\
  getCertificate marshalCert a r w = (Returns (Some NotFound), w) /\
  removeCertificate a r w = (Returns (Some NotFound), w) /\
  setCname httpErrorText a r w = (Returns (Some NotFound), w) /\
  getCnames marshalCnames a r w = (Returns (Some NotFound), w) /\
  unsetCname a r w = (Returns (Some NotFound), w) /\
  supportTLS a r w = (Returns (Some NotFound), w) /\
  supportCNAME a r w = (Returns (Some NotFound), w).
Proof.
  intros Hunk. apply ingressService_unknown in Hunk.
  repeat split.
  - intros rd Hdec Hp. unfold addRoutes. run. rewrite Hdec.
    rewrite bool_decide_eq_true_2 by exact Hp. reflexivity.
  - intros rd Hdec Hp. unfold addRoutes. run. rewrite Hdec, Hp, Hunk. reflexivity.
  - unfold getBackend. run. rewrite Hunk. reflexivity.
  - intros opts Hdec. unfold addBackend. run. rewrite Hdec, Hunk. reflexivity.
  - unfold removeBackend. run. rewrite Hunk. reflexivity.
  - intros req Hdec Ht. unfold swap. run. rewrite Hdec.
    rewrite bool_decide_eq_false_2 by exact Ht. rewrite Hunk. reflexivity.
  - unfold info. run. rewrite Hunk. reflexivity.
  - intros cert Hdec. unfold addCertificate. run. rewrite Hdec, Hunk. reflexivity.
  - unfold getCertificate. run. rewrite Hunk. reflexivity.
  - unfold removeCertificate. run. rewrite Hunk. reflexivity.
  - unfold setCname. run. rewrite Hunk. reflexivity.
  - unfold getCnames. run. rewrite Hunk. reflexivity.
  - unfold unsetCname. run. rewrite Hunk. reflexivity.
  - unfold supportTLS. run. rewrite Hunk. reflexivity.
  - unfold supportCNAME. run. rewrite Hunk. reflexivity.
Qed.

End Properties.

(** ** The properties on the concrete registry *)

Lemma ingressService_resolve_witness :
  unknownMode Fixture.api "traefik" /\
  ingressService Fixture.api "traefik" = inl (httpError "" StatusNotFound) /\
  ingressService Fixture.api "" = inr Fixture.ingress /\
  ingressService Fixture.api "istio" = inr Fixture.istio.
Proof.
  destruct (ingressService_resolve Fixture.api) as (Hdef & Hunk & _ & Hin & _).
  split; [reflexivity|]. split; [|split].
  - apply Hunk. reflexivity.
  - rewrite Hdef. apply Hin; [discriminate | reflexivity].
  - apply Hin; [discriminate | reflexivity].
Defined.

Lemma swap_dispatch_witness :
  Fixture.decodeSwap (ReqBody (Fixture.request "" "green")) = inr {| Target := "green" |} /\
  ingressService Fixture.api (var (Fixture.request "" "green") "mode") = inr Fixture.ingress /\
  swap Fixture.decodeSwap Fixture.api (Fixture.request "" "green") Fixture.world0 =
    (Returns None,
     {| providers := 1%nat;
        calls := [CallSwap 1 Fixture.myapp {| AppName := "green"; InstanceName := "canary" |}];
        writer := NewRecorder |}) /\
  Fixture.decodeSwap (ReqBody (Fixture.request "" "{}")) = inr {| Target := "" |} /\
  swap Fixture.decodeSwap Fixture.api (Fixture.request "" "{}") Fixture.world0 =
    (Returns (Some (httpError "empty target" StatusBadRequest)), Fixture.world0).
Proof.
  split; [reflexivity|]. split; [reflexivity|]. split; [|split; [reflexivity|]].
  - apply (proj2 (swap_dispatch Fixture.decodeSwap Fixture.api (Fixture.request "" "green")
                    Fixture.world0 {| Target := "green" |} eq_refl) Fixture.ingress).
    + discriminate.
    + reflexivity.
  - apply (proj1 (swap_dispatch Fixture.decodeSwap Fixture.api (Fixture.request "" "{}")
                    Fixture.world0 {| Target := "" |} eq_refl)).
    reflexivity.
Defined.

Lemma addRoutes_prefix_witness :
  Fixture.decodeRoutes (ReqBody (Fixture.request "istio" "custom")) =
    inr {| Prefix := "custom"; ExtraData := "" |} /\
  addRoutes Fixture.decodeRoutes Fixture.api (Fixture.request "istio" "custom") Fixture.world0 =
    (Returns None, Fixture.world0) /\
  Fixture.decodeRoutes (ReqBody (Fixture.request "istio" "{}")) =
    inr {| Prefix := ""; ExtraData := "" |} /\
  ingressService Fixture.api (var (Fixture.request "istio" "{}") "mode") = inr Fixture.istio /\
  addRoutes Fixture.decodeRoutes Fixture.api (Fixture.request "istio" "{}") Fixture.world0 =
    (Returns None,
     {| providers := 1%nat; calls := [CallUpdate 2 Fixture.myapp ""];
        writer := NewRecorder |}).
Proof.
  split; [reflexivity|]. split; [|split; [reflexivity|split; [reflexivity|]]].
  - apply (proj1 (addRoutes_prefix Fixture.decodeRoutes Fixture.api
                    (Fixture.request "istio" "custom") Fixture.world0
                    {| Prefix := "custom"; ExtraData := "" |} eq_refl)).
    discriminate.
  - apply (proj2 (addRoutes_prefix Fixture.decodeRoutes Fixture.api
                    (Fixture.request "istio" "{}") Fixture.world0
                    {| Prefix := ""; ExtraData := "" |} eq_refl) Fixture.istio);
      reflexivity.
Defined.

Lemma addBackend_route_witness :
  Fixture.decodeOpts (ReqBody (Fixture.request "" "domain"))
    {| Domain := ""; Route := ""; HeaderOpts := ["a=b"; "c=d"]; Others := tt |} =
    inr {| Domain := "example.org"; Route := ""; HeaderOpts := ["a=b"; "c=d"]; Others := tt |} /\
  ingressService Fixture.api (var (Fixture.request "" "domain") "mode") = inr Fixture.ingress /\
  addBackend tt Fixture.decodeOpts Fixture.api (Fixture.request "" "domain") Fixture.world0 =
    (Returns None,
     {| providers := 1%nat;
        calls := [CallCreate 1 Fixture.myapp
                    {| Domain := "example.org"; Route := "/";
                       HeaderOpts := ["a=b"; "c=d"]; Others := tt |}];
        writer := NewRecorder |}) /\
  addBackend tt Fixture.decodeOpts Fixture.api (Fixture.request "" "domain+route")
             Fixture.world0 =
    (Returns None,
     {| providers := 1%nat;
        calls := [CallCreate 1 Fixture.myapp
                    {| Domain := "example.org"; Route := "/app";
                       HeaderOpts := ["a=b"; "c=d"]; Others := tt |}];
        writer := NewRecorder |}).
Proof.
  split; [reflexivity|]. split; [reflexivity|]. split.
  - apply (proj1 (addBackend_route tt Fixture.decodeOpts Fixture.api
                    (Fixture.request "" "domain") Fixture.world0
                    {| Domain := "example.org"; Route := ""; HeaderOpts := ["a=b"; "c=d"];
                       Others := tt |} Fixture.ingress eq_refl eq_refl)).
    + discriminate.
    + reflexivity.
  - apply (proj1 (proj2 (addBackend_route tt Fixture.decodeOpts Fixture.api
                    (Fixture.request "" "domain+route") Fixture.world0
                    {| Domain := "example.org"; Route := "/app";
                       HeaderOpts := ["a=b"; "c=d"]; Others := tt |}
                    Fixture.ingress eq_refl eq_refl))).
    discriminate.
Defined.

Lemma info_descriptions_witness :
  ingressService Fixture.api (var (Fixture.request "" "") "mode") = inr Fixture.ingress /\
  exists described : gmap string string,
    info Fixture.describedOptions Fixture.api (Fixture.request "" "") Fixture.world0 =
      (Returns None,
       {| providers := 1%nat; calls := [CallSupportedOptions 1];
          writer := Write (Encoded (infoMap described)) NewRecorder |}) /\
    described !! "opt1" = Some "default1" /\
    described !! "opt2" = Some "custom" /\
    described !! "opt3" = None.
Proof.
  split; [reflexivity|].
  destruct (info_descriptions Fixture.describedOptions Fixture.api (Fixture.request "" "")
              Fixture.world0 Fixture.ingress eq_refl)
    as (described & Hrun & _ & Hkeep & _ & Hdefault & Habsent).
  exists described. split; [exact Hrun|]. split; [|split].
  - apply Hdefault; reflexivity.
  - apply Hkeep; [reflexivity | discriminate].
  - apply Habsent. reflexivity.
Defined.

Lemma Healthcheck_aggregate_witness :
  [("ingress", Fixture.ingress); ("istio", Fixture.istio); ("lb", Fixture.lb);
   ("nginx", Fixture.nginx)] ≡ₚ map_to_list (IngressServices Fixture.api) /\
  wroteHeader (writer Fixture.world0) = false /\
  fst (healthFailures
         [("ingress", Fixture.ingress); ("istio", Fixture.istio); ("lb", Fixture.lb);
          ("nginx", Fixture.nginx)] (providers Fixture.world0)) =
    [("istio", errorString "timeout")] /\
  (let w' := snd (Healthcheck Fixture.httpErrorText
                    [("ingress", Fixture.ingress); ("istio", Fixture.istio);
                     ("lb", Fixture.lb); ("nginx", Fixture.nginx)] Fixture.world0) in
   calls w' = [CallHealthcheck 1; CallHealthcheck 2; CallHealthcheck 4] /\
   Code (writer w') = StatusInternalServerError /\
   Written (writer w') = [Bytes "failed to check IngressService istio: timeout"]) /\
  map_to_list (IngressServices Fixture.healthy) ≡ₚ map_to_list (IngressServices Fixture.healthy) /\
  fst (healthFailures (map_to_list (IngressServices Fixture.healthy))
         (providers Fixture.world0)) = [] /\
  (let w' := snd (Healthcheck Fixture.httpErrorText
                    (map_to_list (IngressServices Fixture.healthy)) Fixture.world0) in
   Code (writer w') = StatusOK /\ Written (writer w') = [Bytes "WORKING"]) /\
  [("haproxy", Fixture.haproxy); ("ingress", Fixture.ingress); ("istio", Fixture.istio)]
    ≡ₚ map_to_list (IngressServices Fixture.degraded) /\
  fst (healthFailures
         [("haproxy", Fixture.haproxy); ("ingress", Fixture.ingress);
          ("istio", Fixture.istio)] (providers Fixture.world0)) =
    [("haproxy", errorString "connection refused"); ("istio", errorString "timeout")] /\
  (let w' := snd (Healthcheck Fixture.httpErrorText
                    [("haproxy", Fixture.haproxy); ("ingress", Fixture.ingress);
                     ("istio", Fixture.istio)] Fixture.world0) in
   Code (writer w') = StatusInternalServerError /\
   Written (writer w') =
     [Bytes ("failed to check IngressService haproxy: connection refused" +:+ " - " +:+
             "failed to check IngressService istio: timeout")] /\
   Written (writer w') =
     [Bytes "failed to check IngressService haproxy: connection refused - failed to check IngressService istio: timeout"]).
Proof.
  assert (Hperm :
    [("ingress", Fixture.ingress); ("istio", Fixture.istio); ("lb", Fixture.lb);
     ("nginx", Fixture.nginx)] ≡ₚ map_to_list (IngressServices Fixture.api)).
  { vm_compute. etransitivity; [apply perm_swap|].
    apply perm_skip, perm_skip, perm_swap. }
  assert (Hperm2 :
    [("haproxy", Fixture.haproxy); ("ingress", Fixture.ingress); ("istio", Fixture.istio)]
      ≡ₚ map_to_list (IngressServices Fixture.degraded)).
  { symmetry.
    exact (reverse_Permutation
             [("haproxy", Fixture.haproxy); ("ingress", Fixture.ingress);
              ("istio", Fixture.istio)]). }
  split; [exact Hperm|]. split; [reflexivity|]. split; [reflexivity|].
  pose proof (Healthcheck_aggregate Fixture.httpErrorText Fixture.api _ Fixture.world0
                Hperm eq_refl) as Hfail.
  pose proof (Healthcheck_aggregate Fixture.httpErrorText Fixture.healthy _ Fixture.world0
                (reflexivity _) eq_refl) as Hok.
  pose proof (Healthcheck_aggregate Fixture.httpErrorText Fixture.degraded _ Fixture.world0
                Hperm2 eq_refl) as Htwo.
  cbv zeta in Hfail, Hok, Htwo.
  destruct Hfail as (_ & Hcalls & _ & _ & Hfail & _).
  destruct Hok as (_ & _ & _ & Hok & _).
  destruct Htwo as (_ & _ & _ & _ & Hcode & _ & _ & _ & _ & Htwo & _).
  split; [|split; [reflexivity|split; [reflexivity|split;
    [|split; [exact Hperm2|split; [reflexivity|]]]]]].
  - split; [exact Hcalls|]. apply Hfail. discriminate.
  - apply Hok. reflexivity.
  - split; [apply Hcode; discriminate|].
    pose proof (Htwo ("haproxy", errorString "connection refused")
                     ("istio", errorString "timeout") eq_refl) as Hbody.
    split; exact Hbody.
Defined.

Lemma setCname_status_witness :
  ingressService Fixture.api (var (Fixture.request "istio" "") "mode") = inr Fixture.istio /\
  Contains "cname already exists" "exists" = true /\
  Code (writer (snd (setCname Fixture.httpErrorText Fixture.api
                       (Fixture.request "istio" "") Fixture.world0))) = StatusConflict /\
  ingressService Fixture.api (var (Fixture.request "nginx" "") "mode") = inr Fixture.nginx /\
  Contains "backend not found" "exists" = false /\
  Code (writer (snd (setCname Fixture.httpErrorText Fixture.api
                       (Fixture.request "nginx" "") Fixture.world0))) = StatusNotFound.
Proof.
  split; [reflexivity|]. split; [reflexivity|]. split; [|split; [reflexivity|split; [reflexivity|]]].
  - apply (setCname_status Fixture.httpErrorText Fixture.api (Fixture.request "istio" "")
             Fixture.world0 Fixture.istio
             (Fixture.cname (Some (errorString "cname already exists")))
             (errorString "cname already exists") 1%nat eq_refl eq_refl eq_refl eq_refl).
    reflexivity.
  - apply (setCname_status Fixture.httpErrorText Fixture.api (Fixture.request "nginx" "")
             Fixture.world0 Fixture.nginx
             (Fixture.cname (Some (errorString "backend not found")))
             (errorString "backend not found") 1%nat eq_refl eq_refl eq_refl eq_refl).
    reflexivity.
Defined.

Lemma unknown_mode_witness :
  unknownMode Fixture.api (var (Fixture.request "traefik" "custom") "mode") /\
  Fixture.decodeRoutes (ReqBody (Fixture.request "traefik" "custom")) =
    inr {| Prefix := "custom"; ExtraData := "" |} /\
  addRoutes Fixture.decodeRoutes Fixture.api (Fixture.request "traefik" "custom")
            Fixture.world0 = (Returns None, Fixture.world0) /\
  removeBackend Fixture.api (Fixture.request "traefik" "custom") Fixture.world0 =
    (Returns (Some (httpError "" StatusNotFound)), Fixture.world0) /\
  swap Fixture.decodeSwap Fixture.api (Fixture.request "traefik" "custom") Fixture.world0 =
    (Returns (Some (httpError "" StatusNotFound)), Fixture.world0).
Proof.
  split; [reflexivity|]. split; [reflexivity|].
  destruct (unknown_mode tt Fixture.decodeOpts Fixture.decodeRoutes Fixture.decodeSwap
              Fixture.decodeCert (fun c : string => inr c)
              (fun c : list string => inr (Join c ",")) Fixture.httpErrorText
              Fixture.describedOptions Fixture.api (Fixture.request "traefik" "custom")
              Fixture.world0 eq_refl)
    as (Hroutes & _ & _ & _ & Hremove & Hswap & _).
  split; [|split].
  - apply (Hroutes {| Prefix := "custom"; ExtraData := "" |}); [reflexivity | discriminate].
  - exact Hremove.
  - apply (Hswap {| Target := "custom" |}); [reflexivity | discriminate].
Defined.

(** C2 (addCertificate, on the concrete registry): Provider [lb] lacks the
    TLS capability. A certificate request for it panics at the unchecked
    type assertion: the handler returns no error value at all, NotFound or
    other, though it calls no TLS method; the probe [supportTLS], which
    checks the assertion, answers the same Provider with NotFound. *)
Theorem addCertificate_panics_without_TLS :
  ingressService Fixture.api (var (Fixture.request "lb" "PEM") "mode") = inr Fixture.lb /\
  asTLS Fixture.lb = None /\
  addCertificate Fixture.decodeCert Fixture.api (Fixture.request "lb" "PEM") Fixture.world0 =
    (Panics, Fixture.world0) /\
  (forall err,
     fst (addCertificate Fixture.decodeCert Fixture.api (Fixture.request "lb" "PEM")
            Fixture.world0) <> Returns err) /\
  supportTLS Fixture.api (Fixture.request "lb" "PEM") Fixture.world0 =
    (Returns None,
     {| providers := 0%nat; calls := [];
        writer := {| wroteHeader := true; Code := StatusNotFound; HeaderMap := ∅;
                     Written := [Bytes "No TLS Capabilities"]; superfluous := [];
                     writeErr := None |} |}).
Proof.
  assert (Hpanic :
    addCertificate Fixture.decodeCert Fixture.api (Fixture.request "lb" "PEM")
      Fixture.world0 = (Panics, Fixture.world0)).
  { apply (addCertificate_without_TLS Fixture.decodeCert Fixture.api _ _ Fixture.lb "PEM");
      reflexivity. }
  split; [reflexivity|]. split; [reflexivity|]. split; [exact Hpanic|]. split.
  - intros err. rewrite Hpanic. discriminate.
  - rewrite (supportTLS_without_TLS Fixture.api _ _ Fixture.lb); reflexivity.
Qed.

(** ** Further properties of the handlers *)

Section Handlers.

Context {PS OtherOpts RoutesRequestExtraData CertData CnamesResp : Type}.
Context (zeroOthers : OtherOpts).
Context (decodeOpts : string -> @Opts OtherOpts -> error + @Opts OtherOpts).
Context (decodeRoutes : string -> error + @RoutesRequestData RoutesRequestExtraData).
Context (decodeSwap : string -> error + swapReq).
Context (decodeCert : string -> error + CertData).
Context (marshalCert : CertData -> error + string).
Context (marshalCnames : CnamesResp -> error + string).
Context (httpErrorText : string -> Z -> string).
Context (DescribedOptions : gmap string string).

Local Abbreviation Service := (@Service PS OtherOpts RoutesRequestExtraData CertData CnamesResp).
Local Abbreviation RouterAPI := (@RouterAPI PS OtherOpts RoutesRequestExtraData CertData CnamesResp).
Local Abbreviation World := (@World PS OtherOpts RoutesRequestExtraData CertData).
Local Abbreviation routes :=
  (registerRoutes zeroOthers decodeOpts decodeRoutes decodeSwap decodeCert marshalCert
                  marshalCnames httpErrorText DescribedOptions).

Implicit Types (a : RouterAPI) (r : Request) (w : World) (svc : Service).

Ltac unfold_handlers :=
  unfold getBackend, addBackend, updateBackend, removeBackend, addRoutes, removeRoutes,
    getRoutes, swap, info, addCertificate, getCertificate, removeCertificate, setCname,
    getCnames, unsetCname, supportTLS, supportCNAME, supportInfo, supportPrefix.

Ltac unfold_monad :=
  unfold handle, Encode, WriteBytes, writeChunk, bind, try, check, return_, ret, invoke,
    onWriter, panic, assertTLS, assertCNAME.

(** Forget what the parts of the request are, then run the handler through
    every branch. *)
Ltac forget_request r :=
  repeat match goal with
         | |- context [var r ?k] => generalize (var r k); intro
         | |- context [instanceID r] => generalize (instanceID r); intro
         | |- context [ReqBody r] => generalize (ReqBody r); intro
         | |- context [HeaderValues r ?k] => generalize (HeaderValues r k); intro
         end.

Ltac branches :=
  repeat first
    [ progress (unfold handle, Encode, WriteBytes, writeChunk, bind, try, check, return_, ret, invoke,
                  onWriter, panic, assertTLS, assertCNAME in *; simpl in *; simplify_eq)
    | case_match ].

(** *** Backends *)

(** X1: [getBackend], on a mode that resolves: one GetAddresses call; an error
    from it is returned and nothing is encoded, whatever addresses came
    with it; otherwise the handler encodes the addresses with, as Address,
    the first of them, or the empty string when there is none, and returns
    the error of that write: nil on a sound connection, also for an empty
    address list. *)
Theorem getBackend_addresses a r w svc :
  ingressService a (var r "mode") = inr svc ->
  let res := GetAddresses svc (instanceID r) (providers w) in
  let addrs := fst (fst res) in
  let log := calls w ++ [CallGetAddresses (ptr svc) (instanceID r)] in
  (forall e, snd (fst res) = Some e ->
     getBackend a r w =
       (Returns (Some e), {| providers := snd res; calls := log; writer := writer w |})) /\
  (snd (fst res) = None ->
     getBackend a r w =
       (Returns (writeErr (writer w)),
        {| providers := snd res; calls := log;
           writer := Write (Encoded (getBackendResponse (default "" (head addrs)) addrs))
                           (writer w) |})) /\
  (snd (fst res) = None -> addrs = [] ->
     getBackend a r w =
       (Returns (writeErr (writer w)),
        {| providers := snd res; calls := log;
           writer := Write (Encoded (getBackendResponse "" [])) (writer w) |})).
Proof.
  intros Hsvc res addrs log. subst res addrs log.
  unfold getBackend. unfold_monad. rewrite Hsvc. simpl.
  destruct (GetAddresses svc (instanceID r) (providers w)) as [[addrs err] ps]. simpl.
  split; [|split].
  - intros e ->. reflexivity.
  - intros ->. destruct addrs; reflexivity.
  - intros -> ->. reflexivity.
Qed.

(** X2: [removeBackend], on a mode that resolves: exactly the call
    [svc.Remove(id)], whose result is returned; the response is left
    alone. *)
Theorem removeBackend_dispatch a r w svc :
  ingressService a (var r "mode") = inr svc ->
  removeBackend a r w =
    (Returns (fst (Remove svc (instanceID r) (providers w))),
     {| providers := snd (Remove svc (instanceID r) (providers w));
        calls := calls w ++ [CallRemove (ptr svc) (instanceID r)];
        writer := writer w |}).
Proof.
  intros Hsvc. unfold removeBackend. unfold_monad. rewrite Hsvc. simpl.
  destruct (Remove svc _ _); reflexivity.
Qed.

(** *** Certificates and CNAMEs on a capable Provider *)

(** X5: [addCertificate], on a Provider with the TLS capability: exactly the
    call AddCertificate(id, certname, cert) with the certificate decoded
    from the body and the name of the path; its result is returned and the
    response is left alone. *)
Theorem addCertificate_dispatch a r w svc tls cert :
  decodeCert (ReqBody r) = inr cert ->
  ingressService a (var r "mode") = inr svc ->
  asTLS svc = Some tls ->
  let res := AddCertificate tls (instanceID r) (var r "certname") cert (providers w) in
  addCertificate decodeCert a r w =
    (Returns (fst res),
     {| providers := snd res;
        calls := calls w ++ [CallAddCertificate (ptr svc) (instanceID r)
                                                (var r "certname") cert];
        writer := writer w |}).
Proof.
  intros Hdec Hsvc Htls res. subst res. unfold addCertificate. unfold_monad.
  rewrite Hdec, Hsvc. simpl. rewrite Htls. unfold_monad. simpl.
  destruct (AddCertificate tls _ _ _ _); reflexivity.
Qed.

(** X6: [getCertificate], on a Provider with the TLS capability and a fresh
    response: an error of the Provider is returned with status NotFound
    and an empty body; a certificate that marshals is written as the body,
    with status 200 and content type application/json, and the error of
    that write is returned; a marshalling error is returned with the
    response untouched. *)
Theorem getCertificate_outcomes a r w svc tls :
  ingressService a (var r "mode") = inr svc ->
  asTLS svc = Some tls ->
  wroteHeader (writer w) = false ->
  let res := GetCertificate tls (instanceID r) (var r "certname") (providers w) in
  let out := getCertificate marshalCert a r w in
  calls (snd out) =
    calls w ++ [CallGetCertificate (ptr svc) (instanceID r) (var r "certname")] /\
  (forall e, snd (fst res) = Some e ->
     fst out = Returns (Some e) /\
     Code (writer (snd out)) = StatusNotFound /\
     Written (writer (snd out)) = Written (writer w)) /\
  (forall b, snd (fst res) = None -> marshalCert (fst (fst res)) = inr b ->
     fst out = Returns (writeErr (writer w)) /\
     Code (writer (snd out)) = StatusOK /\
     Written (writer (snd out)) = Written (writer w) ++ [Bytes b] /\
     HeaderMap (writer (snd out)) !! "Content-Type" = Some "application/json") /\
  (forall e, snd (fst res) = None -> marshalCert (fst (fst res)) = inl e ->
     fst out = Returns (Some e) /\ writer (snd out) = writer w).
Proof.
  intros Hsvc Htls Hfresh res out. subst res out.
  unfold getCertificate. unfold_monad. rewrite Hsvc. simpl. rewrite Htls. unfold_monad. simpl.
  destruct (GetCertificate tls _ _ _) as [[cert err] ps]. simpl.
  split; [|split; [|split]].
  - destruct err; simpl; [reflexivity|]. destruct (marshalCert cert); reflexivity.
  - intros e ->. simpl. unfold WriteHeader. rewrite Hfresh. auto.
  - intros b -> ->. simpl. unfold Write, HeaderSet. simpl. rewrite Hfresh. simpl.
    rewrite lookup_insert_eq. auto.
  - intros e -> ->. auto.
Qed.

(** X7: [removeCertificate], on a Provider with the TLS capability and a
    fresh response: one RemoveCertificate call, whose result is returned;
    an error sends status NotFound with no body, success leaves the
    response alone. *)
Theorem removeCertificate_outcomes a r w svc tls :
  ingressService a (var r "mode") = inr svc ->
  asTLS svc = Some tls ->
  wroteHeader (writer w) = false ->
  let res := RemoveCertificate tls (instanceID r) (var r "certname") (providers w) in
  let out := removeCertificate a r w in
  fst out = Returns (fst res) /\
  calls (snd out) =
    calls w ++ [CallRemoveCertificate (ptr svc) (instanceID r) (var r "certname")] /\
  (is_Some (fst res) ->
     Code (writer (snd out)) = StatusNotFound /\
     Written (writer (snd out)) = Written (writer w)) /\
  (fst res = None -> writer (snd out) = writer w).
Proof.
  intros Hsvc Htls Hfresh res out. subst res out.
  unfold removeCertificate. unfold_monad. rewrite Hsvc. simpl. rewrite Htls. unfold_monad. simpl.
  destruct (RemoveCertificate tls _ _ _) as [err ps]. simpl.
  destruct err as [e|]; simpl.
  - unfold WriteHeader. rewrite Hfresh.
    split; [reflexivity|]. split; [reflexivity|].
    split; [intros _; split; reflexivity | discriminate].
  - split; [reflexivity|]. split; [reflexivity|].
    split; [intros [e He]; discriminate | reflexivity].
Qed.

(** X8: [getCnames], on a Provider with the CNAME capability and a fresh
    response: an error of the Provider is returned with the response
    untouched (no NotFound is sent, unlike [getCertificate]); names that
    marshal are written as the body, with status 200 and content type
    application/json, and the error of that write is returned; a
    marshalling error is returned with the response untouched. *)
Theorem getCnames_outcomes a r w svc cn :
  ingressService a (var r "mode") = inr svc ->
  asCNAME svc = Some cn ->
  wroteHeader (writer w) = false ->
  let res := GetCnames cn (instanceID r) (providers w) in
  let out := getCnames marshalCnames a r w in
  calls (snd out) = calls w ++ [CallGetCnames (ptr svc) (instanceID r)] /\
  (forall e, snd (fst res) = Some e ->
     fst out = Returns (Some e) /\ writer (snd out) = writer w) /\
  (forall b, snd (fst res) = None -> marshalCnames (fst (fst res)) = inr b ->
     fst out = Returns (writeErr (writer w)) /\
     Code (writer (snd out)) = StatusOK /\
     Written (writer (snd out)) = Written (writer w) ++ [Bytes b] /\
     HeaderMap (writer (snd out)) !! "Content-Type" = Some "application/json") /\
  (forall e, snd (fst res) = None -> marshalCnames (fst (fst res)) = inl e ->
     fst out = Returns (Some e) /\ writer (snd out) = writer w).
Proof.
  intros Hsvc Hcn Hfresh res out. subst res out.
  unfold getCnames. unfold_monad. rewrite Hsvc. simpl. rewrite Hcn. unfold_monad. simpl.
  destruct (GetCnames cn _ _) as [[names err] ps]. simpl.
  split; [|split; [|split]].
  - destruct err; simpl; [reflexivity|]. destruct (marshalCnames names); reflexivity.
  - intros e ->. auto.
  - intros b -> ->. simpl. unfold Write, HeaderSet. simpl. rewrite Hfresh. simpl.
    rewrite lookup_insert_eq. auto.
  - intros e -> ->. auto.
Qed.

(** X9: [setCname] and [unsetCname], on a Provider with the CNAME capability:
    each makes its one call with the instance and the cname of the path;
    [unsetCname] returns the result and never touches the response;
    [setCname] leaves the response untouched when the Provider succeeds. *)
Theorem cname_dispatch a r w svc cn :
  ingressService a (var r "mode") = inr svc ->
  asCNAME svc = Some cn ->
  let id := instanceID r in
  let cname := var r "cname" in
  unsetCname a r w =
    (Returns (fst (UnsetCname cn id cname (providers w))),
     {| providers := snd (UnsetCname cn id cname (providers w));
        calls := calls w ++ [CallUnsetCname (ptr svc) id cname];
        writer := writer w |}) /\
  (fst (SetCname cn id cname (providers w)) = None ->
   setCname httpErrorText a r w =
     (Returns None,
      {| providers := snd (SetCname cn id cname (providers w));
         calls := calls w ++ [CallSetCname (ptr svc) id cname];
         writer := writer w |})).
Proof.
  intros Hsvc Hcn id cname. subst id cname. split.
  - unfold unsetCname. unfold_monad. rewrite Hsvc. simpl. rewrite Hcn. unfold_monad. simpl.
    destruct (UnsetCname cn _ _ _); reflexivity.
  - unfold setCname. unfold_monad. rewrite Hsvc. simpl. rewrite Hcn. unfold_monad. simpl.
    destruct (SetCname cn _ _ _) as [err ps]. simpl. intros ->. reflexivity.
Qed.

(** *** Capability probes *)

(** X10: [supportTLS] and [supportCNAME], on a mode that resolves and a fresh
    response: the probe calls no Provider method and answers 200 "OK"
    when the Provider has the capability, 404 with the body
    "No TLS Capabilities" or "No CNAME Capabilities" when it lacks it; in
    both cases it returns the error of writing that body, nil on a sound
    connection. *)
Theorem support_probes a r w svc :
  ingressService a (var r "mode") = inr svc ->
  wroteHeader (writer w) = false ->
  let t := supportTLS a r w in
  let c := supportCNAME a r w in
  fst t = Returns (writeErr (writer w)) /\
  providers (snd t) = providers w /\ calls (snd t) = calls w /\
  Code (writer (snd t)) = (if asTLS svc is Some _ then StatusOK else StatusNotFound) /\
  Written (writer (snd t)) =
    Written (writer w) ++
      [Bytes (if asTLS svc is Some _ then "OK" else "No TLS Capabilities")] /\
  fst c = Returns (writeErr (writer w)) /\
  providers (snd c) = providers w /\ calls (snd c) = calls w /\
  Code (writer (snd c)) = (if asCNAME svc is Some _ then StatusOK else StatusNotFound) /\
  Written (writer (snd c)) =
    Written (writer w) ++
      [Bytes (if asCNAME svc is Some _ then "OK" else "No CNAME Capabilities")].
Proof.
  intros Hsvc Hfresh t c. subst t c.
  unfold supportTLS, supportCNAME. unfold_monad. rewrite Hsvc. simpl.
  destruct (asTLS svc), (asCNAME svc); simpl;
    unfold Write, WriteHeader; simpl; rewrite Hfresh; simpl; repeat split.
Qed.

(** *** Malformed bodies *)

(** X4: A body that does not decode is reported before the mode is resolved
    and before any capability is asserted: [addBackend], [addRoutes] and
    [addCertificate] return the decoder's error, [swap] replaces it by
    "error parsing request", and the world is as it was. This holds for
    an unknown mode and for a Provider without the TLS capability too. *)
Theorem decode_errors a r w e :
  (decodeOpts (ReqBody r)
     {| Domain := ""; Route := ""; HeaderOpts := HeaderValues r "X-Router-Opt";
        Others := zeroOthers |} = inl e ->
   addBackend zeroOthers decodeOpts a r w = (Returns (Some e), w)) /\
  (decodeRoutes (ReqBody r) = inl e ->
   addRoutes decodeRoutes a r w = (Returns (Some e), w)) /\
  (decodeCert (ReqBody r) = inl e ->
   addCertificate decodeCert a r w = (Returns (Some e), w)) /\
  (decodeSwap (ReqBody r) = inl e ->
   swap decodeSwap a r w = (Returns (Some (errorString "error parsing request")), w)).
Proof.
  unfold_handlers. unfold_monad. simpl.
  repeat split; intros ->; reflexivity.
Qed.

(** *** What no registered handler does *)

Ltac each_route Hin :=
  unfold registerRoutes in Hin;
  repeat (apply elem_of_cons in Hin as [Hin|Hin]; [simplify_eq|]);
  [..|by apply elem_of_nil in Hin].

(** X13: Every handler of the route table only appends to the call log, and
    appends at most one Provider call per request. *)
Theorem routes_call_at_most_once a pattern method h r w :
  (pattern, method, h) ∈ routes a ->
  exists extra, calls (snd (h r w)) = calls w ++ extra /\ (length extra <= 1)%nat.
Proof.
  intros Hin. each_route Hin; unfold_handlers; forget_request r; branches;
    first [ exists []; split; [symmetry; apply app_nil_r | simpl; lia]
          | eexists [_]; split; [reflexivity | simpl; lia] ].
Qed.

(** X12: A handler of the route table panics only on a request whose mode
    resolves to a Provider without the TLS or the CNAME capability, and
    then it has changed nothing: no Provider was called and nothing was
    written. *)
Theorem routes_panic a pattern method h r w :
  (pattern, method, h) ∈ routes a ->
  fst (h r w) = Panics ->
  (lacksTLS a r \/ lacksCNAME a r) /\ snd (h r w) = w.
Proof.
  intros Hin. unfold lacksTLS, lacksCNAME.
  each_route Hin; unfold_handlers; forget_request r; branches;
    try discriminate; intros _; split; eauto.
Qed.

(** X11: The six handlers with an unchecked type assertion panic exactly when
    the mode resolves to a Provider without the capability asserted;
    [addCertificate] decodes the body first, so it panics only if the body
    decodes as well. *)
Theorem assertion_panics a r w :
  (fst (addCertificate decodeCert a r w) = Panics <->
     (exists cert, decodeCert (ReqBody r) = inr cert) /\ lacksTLS a r) /\
  (fst (getCertificate marshalCert a r w) = Panics <-> lacksTLS a r) /\
  (fst (removeCertificate a r w) = Panics <-> lacksTLS a r) /\
  (fst (setCname httpErrorText a r w) = Panics <-> lacksCNAME a r) /\
  (fst (getCnames marshalCnames a r w) = Panics <-> lacksCNAME a r) /\
  (fst (unsetCname a r w) = Panics <-> lacksCNAME a r).
Proof.
  unfold lacksTLS, lacksCNAME.
  split_and!; unfold_handlers; forget_request r; branches;
    (split; intros;
     repeat match goal with
            | H : _ /\ _ |- _ => destruct H
            | H : exists _, _ |- _ => destruct H
            end;
     simplify_eq; eauto 10).
Qed.

(** X15: [addBackend], [updateBackend], [removeBackend], [addRoutes],
    [removeRoutes], [swap], [addCertificate] and [unsetCname] never write
    to the response, whatever the request and whatever the Provider
    answers: status and body are left to the caller of the handler. *)
Theorem silent_handlers a r w :
  writer (snd (addBackend zeroOthers decodeOpts a r w)) = writer w /\
  writer (snd (updateBackend a r w)) = writer w /\
  writer (snd (removeBackend a r w)) = writer w /\
  writer (snd (addRoutes decodeRoutes a r w)) = writer w /\
  writer (snd (removeRoutes a r w)) = writer w /\
  writer (snd (swap decodeSwap a r w)) = writer w /\
  writer (snd (addCertificate decodeCert a r w)) = writer w /\
  writer (snd (unsetCname a r w)) = writer w.
Proof.
  repeat split; unfold_handlers; forget_request r; branches; reflexivity.
Qed.

(** X16: [updateBackend], [getRoutes], [removeRoutes] and the four probes
    under [/support] never call a Provider and never change the Provider
    state, whatever the request; the first three and the two static probes
    do not even resolve the mode: for an unknown mode as well,
    [updateBackend], [removeRoutes] and the static probes return nil, and
    [getRoutes] returns the error of its write and no other. *)
Theorem provider_free_handlers a r w :
  (forall h,
     h ∈ [updateBackend a; getRoutes a; removeRoutes a; supportTLS a; supportCNAME a;
          supportInfo a; supportPrefix a] ->
     providers (snd (h r w)) = providers w /\ calls (snd (h r w)) = calls w) /\
  (forall h,
     h ∈ [updateBackend a; removeRoutes a; supportInfo a; supportPrefix a] ->
     fst (h r w) = Returns None) /\
  fst (getRoutes a r w) = Returns (writeErr (writer w)).
Proof.
  split; [|split]; [intros h Hin | intros h Hin | reflexivity];
    repeat (apply elem_of_cons in Hin as [Hin|Hin]; [subst h|]);
    try (by apply elem_of_nil in Hin);
    unfold_handlers; forget_request r; branches; auto.
Qed.

(** X14: On a fresh response, a handler of the route table that sends a
    status sends 200, NotFound or Conflict, never another one; and the
    only superfluous WriteHeader of the table is the NotFound that
    [setCname] issues after it has sent Conflict. *)
Theorem routes_status a pattern method h r w :
  (pattern, method, h) ∈ routes a ->
  wroteHeader (writer w) = false ->
  let rw := writer (snd (h r w)) in
  (wroteHeader rw = true ->
   Code rw = StatusOK \/ Code rw = StatusNotFound \/ Code rw = StatusConflict) /\
  (superfluous rw = superfluous (writer w) \/
   h = setCname httpErrorText a /\ Code rw = StatusConflict /\
   superfluous rw = superfluous (writer w) ++ [StatusNotFound]).
Proof.
  intros Hin Hfresh rw. subst rw.
  each_route Hin;
    unfold_handlers; forget_request r; unfold Write, WriteHeader, HeaderSet;
    branches; try congruence;
    (split; [intros Hsent; simpl in Hsent; first [congruence | auto 10]|]);
    first [ left; reflexivity | right; repeat split; reflexivity ].
Qed.

(** *** The options handed to Create *)

(** X3: [addBackend], on a body that decodes to [opts] and a mode that
    resolves: the one Provider call is Create(id, o) where [o] has the
    Domain, the header options and the remaining fields of [opts]; its
    Route is "/" when [opts] has a Domain and no Route, and the Route of
    [opts] in every other case, so an empty Domain keeps an empty Route;
    hence a Domain never reaches the Provider without a Route. *)
Theorem addBackend_options a r w opts svc :
  decodeOpts (ReqBody r)
    {| Domain := ""; Route := ""; HeaderOpts := HeaderValues r "X-Router-Opt";
       Others := zeroOthers |} = inr opts ->
  ingressService a (var r "mode") = inr svc ->
  exists o,
    addBackend zeroOthers decodeOpts a r w =
      (Returns (fst (Create svc (instanceID r) o (providers w))),
       {| providers := snd (Create svc (instanceID r) o (providers w));
          calls := calls w ++ [CallCreate (ptr svc) (instanceID r) o];
          writer := writer w |}) /\
    Domain o = Domain opts /\ HeaderOpts o = HeaderOpts opts /\ Others o = Others opts /\
    (Domain opts <> "" -> Route opts = "" -> Route o = "/") /\
    (Domain opts = "" \/ Route opts <> "" -> Route o = Route opts) /\
    (Domain o <> "" -> Route o <> "").
Proof.
  intros Hdec Hsvc. unfold addBackend. unfold_monad. rewrite Hdec. simpl.
  rewrite Hsvc. simpl.
  destruct opts as [domain route hopts others]. simpl.
  destruct domain as [|c domain], route as [|c' route]; simpl;
    (match goal with |- context [CallCreate _ _ ?o] => exists o end;
     split; [destruct (Create svc _ _ _); reflexivity|]; simpl;
     repeat split; auto; try discriminate; try contradiction;
     intros [H|H]; first [discriminate H | contradiction | reflexivity]).
Qed.

(** *** The default mode *)

Lemma ingressService_default a : ingressService a "" = ingressService a (DefaultMode a).
Proof.
  unfold ingressService. simpl.
  destruct (decide (DefaultMode a = "")) as [->|]; reflexivity.
Qed.

Lemma var_withMode_eq mode r : var (withMode mode r) "mode" = mode.
Proof. unfold var, withMode. simpl. rewrite lookup_insert_eq. reflexivity. Qed.

Lemma var_withMode_ne k mode r : k <> "mode" -> var (withMode mode r) k = var r k.
Proof.
  intros Hne. unfold var, withMode. simpl. rewrite lookup_insert_ne by congruence.
  reflexivity.
Qed.

Lemma instanceID_withMode mode r : instanceID (withMode mode r) = instanceID r.
Proof.
  unfold instanceID. rewrite var_withMode_ne by discriminate. reflexivity.
Qed.

(** X17: A request that names no mode is served by every handler of the route
    table exactly as the same request naming the default mode: same
    outcome, same Provider calls, same response. *)
Theorem routes_default_mode a pattern method h r w :
  (pattern, method, h) ∈ routes a ->
  var r "mode" = "" ->
  h r w = h (withMode (DefaultMode a) r) w.
Proof.
  intros Hin Hmode.
  each_route Hin; unfold_handlers;
    rewrite ?instanceID_withMode, ?var_withMode_eq, ?Hmode, ?ingressService_default,
      ?(var_withMode_ne "certname"), ?(var_withMode_ne "cname") by discriminate;
    reflexivity.
Qed.

(** *** The health aggregate and the order of the registry *)

Lemma steadyProbes_tail (entry : string * Service) (entries : list (string * Service)) :
  steadyProbes (entry :: entries) -> steadyProbes entries.
Proof.
  intros Hsteady mode svc hc Hin. apply (Hsteady mode svc hc). right. exact Hin.
Qed.

Lemma healthFailures_steady (entries : list (string * Service)) :
  steadyProbes entries ->
  forall ps ps0, fst (healthFailures entries ps) = omap (probeIn ps0) entries.
Proof.
  induction entries as [|[mode svc] entries IH]; intros Hsteady ps ps0; simpl.
  - reflexivity.
  - specialize (IH (steadyProbes_tail _ _ Hsteady)).
    unfold probeIn at 1. simpl.
    destruct (asHealthcheckable svc) as [hc|] eqn:Hhc; [|apply IH].
    rewrite <- (Hsteady mode svc hc (list_elem_of_here _ _) Hhc ps ps0).
    destruct (hc ps) as [err ps']. simpl. specialize (IH ps' ps0).
    destruct (healthFailures entries ps') as [failures ps'']. simpl in *.
    destruct err; rewrite IH; reflexivity.
Qed.

Lemma filter_Permutation {A} (f : A -> bool) (l l' : list A) :
  l ≡ₚ l' -> List.filter f l ≡ₚ List.filter f l'.
Proof.
  induction 1 as [|x l l' _ IH|x y l|l l' l'' _ IH1 _ IH2]; simpl.
  - reflexivity.
  - destruct (f x); [apply perm_skip|]; exact IH.
  - destruct (f x), (f y); try reflexivity. apply perm_swap.
  - etransitivity; eassumption.
Qed.

(** X18: When the result of no probe depends on the Provider state, the order
    in which [Healthcheck] visits the registry does not matter: two
    orders give the same status, the same failures and the same Provider
    calls up to their order, hence bodies with the same messages. *)
Theorem Healthcheck_any_order (entries1 entries2 : list (string * Service)) w :
  entries1 ≡ₚ entries2 ->
  steadyProbes entries1 ->
  wroteHeader (writer w) = false ->
  let w1 := snd (Healthcheck httpErrorText entries1 w) in
  let w2 := snd (Healthcheck httpErrorText entries2 w) in
  Code (writer w1) = Code (writer w2) /\
  fst (healthFailures entries1 (providers w)) ≡ₚ
    fst (healthFailures entries2 (providers w)) /\
  calls w1 ≡ₚ calls w2.
Proof.
  intros Hperm Hsteady1 Hfresh w1 w2. subst w1 w2.
  assert (Hsteady2 : steadyProbes entries2).
  { intros mode svc hc Hin. apply (Hsteady1 mode svc hc). rewrite Hperm. exact Hin. }
  assert (Hfailures : fst (healthFailures entries1 (providers w)) ≡ₚ
                      fst (healthFailures entries2 (providers w))).
  { rewrite (healthFailures_steady entries1 Hsteady1 _ (providers w)).
    rewrite (healthFailures_steady entries2 Hsteady2 _ (providers w)).
    rewrite Hperm. reflexivity. }
  rewrite !Healthcheck_run. simpl. split; [|split].
  - destruct (fst (healthFailures entries1 (providers w))) as [|f1 l1],
             (fst (healthFailures entries2 (providers w))) as [|f2 l2];
      unfold Write, WriteHeader; rewrite Hfresh; simpl; try reflexivity.
    + apply Permutation_nil_l in Hfailures. discriminate.
    + apply Permutation_nil_r in Hfailures. discriminate.
  - exact Hfailures.
  - apply Permutation_app; [reflexivity|].
    apply Permutation_map, filter_Permutation, Hperm.
Qed.

End Handlers.

(** ** The further properties on the concrete registry *)

Lemma getBackend_addresses_witness :
  ingressService Fixture.api (var (Fixture.request "lb" "") "mode") = inr Fixture.lb /\
  getBackend Fixture.api (Fixture.request "lb" "") Fixture.world0 =
    (Returns None,
     {| providers := 1%nat; calls := [CallGetAddresses 3 Fixture.myapp];
        writer := Write (Encoded (getBackendResponse "10.0.0.1" ["10.0.0.1"])) NewRecorder |}) /\
  ingressService Fixture.staging (var (Fixture.request "" "") "mode") =
    inr Fixture.provisioning /\
  getBackend Fixture.staging (Fixture.request "" "") Fixture.world0 =
    (Returns None,
     {| providers := 1%nat; calls := [CallGetAddresses 5 Fixture.myapp];
        writer := Write (Encoded (getBackendResponse "" [])) NewRecorder |}) /\
  fst (getBackend Fixture.api (Fixture.request "lb" "") Fixture.hangup) =
    Returns (Some (errorString "broken pipe")).
Proof.
  split; [reflexivity|]. split; [|split; [reflexivity|split]].
  - apply (proj1 (proj2 (getBackend_addresses Fixture.api (Fixture.request "lb" "")
                           Fixture.world0 Fixture.lb eq_refl))).
    reflexivity.
  - apply (proj2 (proj2 (getBackend_addresses Fixture.staging (Fixture.request "" "")
                           Fixture.world0 Fixture.provisioning eq_refl)));
      reflexivity.
  - rewrite (proj1 (proj2 (getBackend_addresses Fixture.api (Fixture.request "lb" "")
                             Fixture.hangup Fixture.lb eq_refl)) eq_refl).
    reflexivity.
Defined.

Lemma removeBackend_dispatch_witness :
  ingressService Fixture.staging (var (Fixture.request "pending" "") "mode") =
    inr Fixture.provisioning /\
  removeBackend Fixture.staging (Fixture.request "pending" "") Fixture.world0 =
    (Returns (Some (errorString "backend not found")),
     {| providers := 1%nat; calls := [CallRemove 5 Fixture.myapp]; writer := NewRecorder |}).
Proof.
  split; [reflexivity|].
  apply (removeBackend_dispatch Fixture.staging (Fixture.request "pending" "")
           Fixture.world0 Fixture.provisioning eq_refl).
Defined.

Lemma addCertificate_dispatch_witness :
  Fixture.decodeCert (ReqBody (Fixture.request "" "PEM")) = inr "PEM" /\
  ingressService Fixture.api (var (Fixture.request "" "PEM") "mode") = inr Fixture.ingress /\
  asTLS Fixture.ingress = Some Fixture.tls /\
  addCertificate Fixture.decodeCert Fixture.api (Fixture.request "" "PEM") Fixture.world0 =
    (Returns None,
     {| providers := 1%nat;
        calls := [CallAddCertificate 1 Fixture.myapp "default" "PEM"];
        writer := NewRecorder |}).
Proof.
  split; [reflexivity|]. split; [reflexivity|]. split; [reflexivity|].
  apply (addCertificate_dispatch Fixture.decodeCert Fixture.api (Fixture.request "" "PEM")
           Fixture.world0 Fixture.ingress Fixture.tls "PEM" eq_refl eq_refl eq_refl).
Defined.

Lemma getCertificate_outcomes_witness :
  ingressService Fixture.api (var (Fixture.request "" "") "mode") = inr Fixture.ingress /\
  asTLS Fixture.ingress = Some Fixture.tls /\
  wroteHeader (writer Fixture.world0) = false /\
  (let out := getCertificate Fixture.marshalCert Fixture.api (Fixture.request "" "")
                Fixture.world0 in
   fst out = Returns None /\
   Code (writer (snd out)) = StatusOK /\
   Written (writer (snd out)) = [Bytes "-----BEGIN CERTIFICATE-----"]) /\
  (let out := getCertificate Fixture.marshalCert Fixture.staging (Fixture.request "" "")
                Fixture.world0 in
   fst out = Returns (Some (errorString "certificate not found")) /\
   Code (writer (snd out)) = StatusNotFound /\
   Written (writer (snd out)) = []).
Proof.
  split; [reflexivity|]. split; [reflexivity|]. split; [reflexivity|]. split.
  - destruct (getCertificate_outcomes Fixture.marshalCert Fixture.api (Fixture.request "" "")
                Fixture.world0 Fixture.ingress Fixture.tls eq_refl eq_refl eq_refl)
      as (_ & _ & Hok & _).
    destruct (Hok "-----BEGIN CERTIFICATE-----" eq_refl eq_refl) as (H1 & H2 & H3 & _).
    split; [exact H1|]. split; [exact H2 | exact H3].
  - destruct (getCertificate_outcomes Fixture.marshalCert Fixture.staging
                (Fixture.request "" "") Fixture.world0 Fixture.provisioning _
                eq_refl eq_refl eq_refl)
      as (_ & Herr & _).
    exact (Herr (errorString "certificate not found") eq_refl).
Defined.

Lemma removeCertificate_outcomes_witness :
  ingressService Fixture.staging (var (Fixture.request "" "") "mode") =
    inr Fixture.provisioning /\
  wroteHeader (writer Fixture.world0) = false /\
  (let out := removeCertificate Fixture.staging (Fixture.request "" "") Fixture.world0 in
   fst out = Returns (Some (errorString "certificate not found")) /\
   Code (writer (snd out)) = StatusNotFound /\
   Written (writer (snd out)) = []) /\
  (let out := removeCertificate Fixture.api (Fixture.request "" "") Fixture.world0 in
   fst out = Returns None /\ writer (snd out) = NewRecorder).
Proof.
  split; [reflexivity|]. split; [reflexivity|]. split.
  - destruct (removeCertificate_outcomes Fixture.staging (Fixture.request "" "")
                Fixture.world0 Fixture.provisioning _ eq_refl eq_refl eq_refl)
      as (Hret & _ & Herr & _).
    split; [exact Hret|]. apply Herr. eexists. reflexivity.
  - destruct (removeCertificate_outcomes Fixture.api (Fixture.request "" "")
                Fixture.world0 Fixture.ingress Fixture.tls eq_refl eq_refl eq_refl)
      as (Hret & _ & _ & Hok).
    split; [exact Hret|]. apply Hok. reflexivity.
Defined.

Lemma getCnames_outcomes_witness :
  ingressService Fixture.api (var (Fixture.request "" "") "mode") = inr Fixture.ingress /\
  asCNAME Fixture.ingress = Some (Fixture.cname None) /\
  wroteHeader (writer Fixture.world0) = false /\
  (let out := getCnames Fixture.marshalCnames Fixture.api (Fixture.request "" "")
                Fixture.world0 in
   fst out = Returns None /\
   Code (writer (snd out)) = StatusOK /\
   Written (writer (snd out)) = [Bytes "www.example.org"]) /\
  (let out := getCnames Fixture.marshalCnames Fixture.staging (Fixture.request "" "")
                Fixture.world0 in
   fst out = Returns (Some (errorString "backend not found")) /\
   writer (snd out) = NewRecorder).
Proof.
  split; [reflexivity|]. split; [reflexivity|]. split; [reflexivity|]. split.
  - destruct (getCnames_outcomes Fixture.marshalCnames Fixture.api (Fixture.request "" "")
                Fixture.world0 Fixture.ingress (Fixture.cname None) eq_refl eq_refl eq_refl)
      as (_ & _ & Hok & _).
    destruct (Hok "www.example.org" eq_refl eq_refl) as (H1 & H2 & H3 & _).
    split; [exact H1|]. split; [exact H2 | exact H3].
  - destruct (getCnames_outcomes Fixture.marshalCnames Fixture.staging
                (Fixture.request "" "") Fixture.world0 Fixture.provisioning _
                eq_refl eq_refl eq_refl)
      as (_ & Herr & _).
    exact (Herr (errorString "backend not found") eq_refl).
Defined.

Lemma cname_dispatch_witness :
  ingressService Fixture.api (var (Fixture.request "" "") "mode") = inr Fixture.ingress /\
  asCNAME Fixture.ingress = Some (Fixture.cname None) /\
  unsetCname Fixture.api (Fixture.request "" "") Fixture.world0 =
    (Returns None,
     {| providers := 1%nat; calls := [CallUnsetCname 1 Fixture.myapp "www.example.org"];
        writer := NewRecorder |}) /\
  setCname Fixture.httpErrorText Fixture.api (Fixture.request "" "") Fixture.world0 =
    (Returns None,
     {| providers := 1%nat; calls := [CallSetCname 1 Fixture.myapp "www.example.org"];
        writer := NewRecorder |}).
Proof.
  split; [reflexivity|]. split; [reflexivity|].
  destruct (cname_dispatch Fixture.httpErrorText Fixture.api (Fixture.request "" "")
              Fixture.world0 Fixture.ingress (Fixture.cname None) eq_refl eq_refl)
    as (Hunset & Hset).
  split; [exact Hunset|]. apply Hset. reflexivity.
Defined.

Lemma support_probes_witness :
  ingressService Fixture.api (var (Fixture.request "istio" "") "mode") = inr Fixture.istio /\
  wroteHeader (writer Fixture.world0) = false /\
  (let t := supportTLS Fixture.api (Fixture.request "istio" "") Fixture.world0 in
   fst t = Returns None /\ calls (snd t) = [] /\
   Code (writer (snd t)) = StatusNotFound /\
   Written (writer (snd t)) = [Bytes "No TLS Capabilities"]) /\
  (let c := supportCNAME Fixture.api (Fixture.request "istio" "") Fixture.world0 in
   fst c = Returns None /\ calls (snd c) = [] /\
   Code (writer (snd c)) = StatusOK /\
   Written (writer (snd c)) = [Bytes "OK"]) /\
  fst (supportCNAME Fixture.api (Fixture.request "istio" "") Fixture.hangup) =
    Returns (Some (errorString "broken pipe")).
Proof.
  split; [reflexivity|]. split; [reflexivity|].
  destruct (support_probes Fixture.api (Fixture.request "istio" "") Fixture.world0
              Fixture.istio eq_refl eq_refl)
    as (T1 & _ & T2 & T3 & T4 & C1 & _ & C2 & C3 & C4).
  destruct (support_probes Fixture.api (Fixture.request "istio" "") Fixture.hangup
              Fixture.istio eq_refl eq_refl)
    as (_ & _ & _ & _ & _ & B1 & _).
  split; [|split]; [| |exact B1];
    (split; [assumption|]; split; [assumption|]; split; assumption).
Defined.

Lemma decode_errors_witness :
  Fixture.decodeCert (ReqBody (Fixture.request "lb" "")) = inl (errorString "EOF") /\
  addCertificate Fixture.decodeCert Fixture.api (Fixture.request "lb" "") Fixture.world0 =
    (Returns (Some (errorString "EOF")), Fixture.world0) /\
  Fixture.decodeSwap (ReqBody (Fixture.request "traefik" "")) = inl (errorString "EOF") /\
  swap Fixture.decodeSwap Fixture.api (Fixture.request "traefik" "") Fixture.world0 =
    (Returns (Some (errorString "error parsing request")), Fixture.world0).
Proof.
  split; [reflexivity|]. split; [|split; [reflexivity|]].
  - destruct (decode_errors tt Fixture.decodeOpts Fixture.decodeRoutes Fixture.decodeSwap
                Fixture.decodeCert Fixture.api (Fixture.request "lb" "") Fixture.world0
                (errorString "EOF")) as (_ & _ & Hcert & _).
    apply Hcert. reflexivity.
  - destruct (decode_errors tt Fixture.decodeOpts Fixture.decodeRoutes Fixture.decodeSwap
                Fixture.decodeCert Fixture.api (Fixture.request "traefik" "") Fixture.world0
                (errorString "EOF")) as (_ & _ & _ & Hswap).
    apply Hswap. reflexivity.
Defined.

Lemma routes_call_at_most_once_witness :
  ("/backend/{name}/swap", "POST", swap Fixture.decodeSwap Fixture.api) ∈ Fixture.routes /\
  exists extra,
    calls (snd (swap Fixture.decodeSwap Fixture.api (Fixture.request "" "green")
                  Fixture.world0)) = calls Fixture.world0 ++ extra /\
    (length extra <= 1)%nat.
Proof.
  assert (Hin : ("/backend/{name}/swap", "POST", swap Fixture.decodeSwap Fixture.api)
                ∈ Fixture.routes).
  { do 7 apply list_elem_of_further. apply list_elem_of_here. }
  split; [exact Hin|].
  exact (routes_call_at_most_once tt Fixture.decodeOpts Fixture.decodeRoutes
           Fixture.decodeSwap Fixture.decodeCert Fixture.marshalCert Fixture.marshalCnames
           Fixture.httpErrorText Fixture.describedOptions Fixture.api _ _ _
           (Fixture.request "" "green") Fixture.world0 Hin).
Defined.

Lemma routes_panic_witness :
  ("/backend/{name}/certificate/{certname}", "PUT",
   addCertificate Fixture.decodeCert Fixture.api) ∈ Fixture.routes /\
  fst (addCertificate Fixture.decodeCert Fixture.api (Fixture.request "lb" "PEM")
         Fixture.world0) = Panics /\
  (lacksTLS Fixture.api (Fixture.request "lb" "PEM") \/
   lacksCNAME Fixture.api (Fixture.request "lb" "PEM")) /\
  snd (addCertificate Fixture.decodeCert Fixture.api (Fixture.request "lb" "PEM")
         Fixture.world0) = Fixture.world0.
Proof.
  assert (Hin : ("/backend/{name}/certificate/{certname}", "PUT",
                 addCertificate Fixture.decodeCert Fixture.api) ∈ Fixture.routes).
  { do 9 apply list_elem_of_further. apply list_elem_of_here. }
  split; [exact Hin|]. split; [reflexivity|].
  exact (routes_panic tt Fixture.decodeOpts Fixture.decodeRoutes
           Fixture.decodeSwap Fixture.decodeCert Fixture.marshalCert Fixture.marshalCnames
           Fixture.httpErrorText Fixture.describedOptions Fixture.api _ _ _
           (Fixture.request "lb" "PEM") Fixture.world0 Hin eq_refl).
Defined.

Lemma provider_free_handlers_witness :
  supportTLS Fixture.api ∈
    [updateBackend Fixture.api; getRoutes Fixture.api; removeRoutes Fixture.api;
     supportTLS Fixture.api; supportCNAME Fixture.api; supportInfo Fixture.api;
     supportPrefix Fixture.api] /\
  providers (snd (supportTLS Fixture.api (Fixture.request "lb" "") Fixture.world0)) = 0%nat /\
  calls (snd (supportTLS Fixture.api (Fixture.request "lb" "") Fixture.world0)) = [] /\
  removeRoutes Fixture.api ∈
    [updateBackend Fixture.api; removeRoutes Fixture.api; supportInfo Fixture.api;
     supportPrefix Fixture.api] /\
  fst (removeRoutes Fixture.api (Fixture.request "traefik" "") Fixture.hangup) =
    Returns None /\
  fst (getRoutes Fixture.api (Fixture.request "traefik" "") Fixture.world0) = Returns None /\
  fst (getRoutes Fixture.api (Fixture.request "traefik" "") Fixture.hangup) =
    Returns (Some (errorString "broken pipe")).
Proof.
  destruct (provider_free_handlers Fixture.api (Fixture.request "lb" "") Fixture.world0)
    as (Hfree & _).
  destruct (provider_free_handlers Fixture.api (Fixture.request "traefik" "") Fixture.world0)
    as (_ & _ & Hroutes).
  destruct (provider_free_handlers Fixture.api (Fixture.request "traefik" "") Fixture.hangup)
    as (_ & Hnil & Hbroken).
  assert (Hin1 : supportTLS Fixture.api ∈
    [updateBackend Fixture.api; getRoutes Fixture.api; removeRoutes Fixture.api;
     supportTLS Fixture.api; supportCNAME Fixture.api; supportInfo Fixture.api;
     supportPrefix Fixture.api]).
  { do 3 apply list_elem_of_further. apply list_elem_of_here. }
  assert (Hin2 : removeRoutes Fixture.api ∈
    [updateBackend Fixture.api; removeRoutes Fixture.api; supportInfo Fixture.api;
     supportPrefix Fixture.api]).
  { apply list_elem_of_further. apply list_elem_of_here. }
  split; [exact Hin1|].
  split; [exact (proj1 (Hfree _ Hin1))|]. split; [exact (proj2 (Hfree _ Hin1))|].
  split; [exact Hin2|]. split; [exact (Hnil _ Hin2)|].
  split; [exact Hroutes | exact Hbroken].
Defined.

Lemma addBackend_options_witness :
  Fixture.decodeOpts (ReqBody (Fixture.request "" "domain"))
    {| Domain := ""; Route := ""; HeaderOpts := ["a=b"; "c=d"]; Others := tt |} =
    inr {| Domain := "example.org"; Route := ""; HeaderOpts := ["a=b"; "c=d"]; Others := tt |} /\
  ingressService Fixture.api (var (Fixture.request "" "domain") "mode") = inr Fixture.ingress /\
  (exists o,
    calls (snd (addBackend tt Fixture.decodeOpts Fixture.api (Fixture.request "" "domain")
                  Fixture.world0)) = [CallCreate 1 Fixture.myapp o] /\
    Domain o = "example.org" /\ Route o = "/" /\ HeaderOpts o = ["a=b"; "c=d"]) /\
  Fixture.decodeOpts (ReqBody (Fixture.request "" "{}"))
    {| Domain := ""; Route := ""; HeaderOpts := ["a=b"; "c=d"]; Others := tt |} =
    inr {| Domain := ""; Route := ""; HeaderOpts := ["a=b"; "c=d"]; Others := tt |} /\
  (exists o,
    calls (snd (addBackend tt Fixture.decodeOpts Fixture.api (Fixture.request "" "{}")
                  Fixture.world0)) = [CallCreate 1 Fixture.myapp o] /\
    Domain o = "" /\ Route o = "").
Proof.
  split; [reflexivity|]. split; [reflexivity|]. split; [|split; [reflexivity|]].
  - destruct (addBackend_options tt Fixture.decodeOpts Fixture.api
                (Fixture.request "" "domain") Fixture.world0
                {| Domain := "example.org"; Route := ""; HeaderOpts := ["a=b"; "c=d"];
                   Others := tt |} Fixture.ingress eq_refl eq_refl)
      as (o & Hrun & Hdomain & Hheader & _ & Hdefault & _ & _).
    exists o. split; [rewrite Hrun; reflexivity|].
    split; [exact Hdomain|]. split; [|exact Hheader].
    apply Hdefault; [discriminate | reflexivity].
  - destruct (addBackend_options tt Fixture.decodeOpts Fixture.api
                (Fixture.request "" "{}") Fixture.world0
                {| Domain := ""; Route := ""; HeaderOpts := ["a=b"; "c=d"];
                   Others := tt |} Fixture.ingress eq_refl eq_refl)
      as (o & Hrun & Hdomain & _ & _ & _ & Hkeep & _).
    exists o. split; [rewrite Hrun; reflexivity|].
    split; [exact Hdomain|]. apply Hkeep. left. reflexivity.
Defined.

Lemma routes_default_mode_witness :
  ("/backend/{name}/swap", "POST", swap Fixture.decodeSwap Fixture.api) ∈ Fixture.routes /\
  var (Fixture.request "" "green") "mode" = "" /\
  swap Fixture.decodeSwap Fixture.api (Fixture.request "" "green") Fixture.world0 =
    swap Fixture.decodeSwap Fixture.api
         (withMode "ingress" (Fixture.request "" "green")) Fixture.world0.
Proof.
  assert (Hin : ("/backend/{name}/swap", "POST", swap Fixture.decodeSwap Fixture.api)
                ∈ Fixture.routes).
  { do 7 apply list_elem_of_further. apply list_elem_of_here. }
  split; [exact Hin|]. split; [reflexivity|].
  exact (routes_default_mode tt Fixture.decodeOpts Fixture.decodeRoutes
           Fixture.decodeSwap Fixture.decodeCert Fixture.marshalCert Fixture.marshalCnames
           Fixture.httpErrorText Fixture.describedOptions Fixture.api _ _ _
           (Fixture.request "" "green") Fixture.world0 Hin eq_refl).
Defined.

Lemma Healthcheck_any_order_witness :
  [("ingress", Fixture.ingress); ("istio", Fixture.istio); ("lb", Fixture.lb);
   ("nginx", Fixture.nginx)] ≡ₚ
  [("nginx", Fixture.nginx); ("lb", Fixture.lb); ("istio", Fixture.istio);
   ("ingress", Fixture.ingress)] /\
  steadyProbes [("ingress", Fixture.ingress); ("istio", Fixture.istio); ("lb", Fixture.lb);
                ("nginx", Fixture.nginx)] /\
  wroteHeader (writer Fixture.world0) = false /\
  Code (writer (snd (Healthcheck Fixture.httpErrorText
                       [("ingress", Fixture.ingress); ("istio", Fixture.istio);
                        ("lb", Fixture.lb); ("nginx", Fixture.nginx)] Fixture.world0))) =
  Code (writer (snd (Healthcheck Fixture.httpErrorText
                       [("nginx", Fixture.nginx); ("lb", Fixture.lb);
                        ("istio", Fixture.istio); ("ingress", Fixture.ingress)]
                       Fixture.world0))).
Proof.
  assert (Hperm :
    [("ingress", Fixture.ingress); ("istio", Fixture.istio); ("lb", Fixture.lb);
     ("nginx", Fixture.nginx)] ≡ₚ
    [("nginx", Fixture.nginx); ("lb", Fixture.lb); ("istio", Fixture.istio);
     ("ingress", Fixture.ingress)]).
  { symmetry.
    exact (reverse_Permutation
             [("ingress", Fixture.ingress); ("istio", Fixture.istio); ("lb", Fixture.lb);
              ("nginx", Fixture.nginx)]). }
  assert (Hsteady : steadyProbes
    [("ingress", Fixture.ingress); ("istio", Fixture.istio); ("lb", Fixture.lb);
     ("nginx", Fixture.nginx)]).
  { intros mode svc hc Hin Hhc ps ps'.
    repeat (apply elem_of_cons in Hin as [Hin|Hin];
            [injection Hin as -> ->; simpl in Hhc;
             first [discriminate Hhc | injection Hhc as <-; reflexivity]|]).
    apply elem_of_nil in Hin. destruct Hin. }
  split; [exact Hperm|]. split; [exact Hsteady|]. split; [reflexivity|].
  exact (proj1 (Healthcheck_any_order Fixture.httpErrorText _ _ Fixture.world0
                  Hperm Hsteady eq_refl)).
Defined.

Lemma routes_status_witness :
  ("/backend/{name}/cname/{cname}", "POST", setCname Fixture.httpErrorText Fixture.api)
    ∈ Fixture.routes /\
  wroteHeader (writer Fixture.world0) = false /\
  (let rw := writer (snd (setCname Fixture.httpErrorText Fixture.api
                            (Fixture.request "istio" "") Fixture.world0)) in
   (wroteHeader rw = true ->
    Code rw = StatusOK \/ Code rw = StatusNotFound \/ Code rw = StatusConflict) /\
   (superfluous rw = superfluous (writer Fixture.world0) \/
    setCname Fixture.httpErrorText Fixture.api = setCname Fixture.httpErrorText Fixture.api /\
    Code rw = StatusConflict /\
    superfluous rw = superfluous (writer Fixture.world0) ++ [StatusNotFound])).
Proof.
  assert (Hin : ("/backend/{name}/cname/{cname}", "POST",
                 setCname Fixture.httpErrorText Fixture.api) ∈ Fixture.routes).
  { do 12 apply list_elem_of_further. apply list_elem_of_here. }
  split; [exact Hin|]. split; [reflexivity|].
  exact (routes_status tt Fixture.decodeOpts Fixture.decodeRoutes
           Fixture.decodeSwap Fixture.decodeCert Fixture.marshalCert Fixture.marshalCnames
           Fixture.httpErrorText Fixture.describedOptions Fixture.api _ _ _
           (Fixture.request "istio" "") Fixture.world0 Hin eq_refl).
Defined.
